(** * CryptoParser: the Bybit data collector, embedded and verified

    A shallow embedding of [BybitDataCollector] (src/CryptoParser.py):
    batch partitioning, the WebSocket callbacks of one batch, ticker
    resolution and the point lookup, with Python's dynamic behaviour
    (truthiness, [in], subscripting, exceptions swallowed by
    [try/except]) written out.

    Conventions.
    - A Python [str] is a [string] holding its UTF-8 bytes; the patterns the
      code searches for are ASCII, so searching and replacing on bytes agree
      with Python's on code points.
    - A value produced by [json.loads] is a [json]; an object keeps its
      fields as an association list read by first match.
    - A Python [dict] keyed by arbitrary hashable values is an association
      list over [pykey], the classes of Python's [==] on hashable JSON
      scalars ([1 == 1.0 == True]); insertion order is kept, as in Python.
    - Code that may raise returns an [outcome]; code that mutates [self]
      and may raise lives in the monad [M]. *)

From Stdlib Require Import List String Ascii ZArith Lia Bool.
From Stdlib Require Import DecimalString SpecFloat.
Import ListNotations.
Open Scope string_scope.
Open Scope Z_scope.

Set Warnings "-register-all".

(** ** Exceptions *)

Inductive pyerr : Type :=
| TypeError
| KeyError
| AttributeError
| ValueError
| OverflowError
| JSONDecodeError
| ConnectionError.

Inductive outcome (A : Type) : Type :=
| Returned (a : A)
| Raised (e : pyerr).

Arguments Returned {A} a.
Arguments Raised {A} e.

Definition obind {A B : Type} (x : outcome A) (f : A -> outcome B) : outcome B :=
  match x with
  | Returned a => f a
  | Raised e => Raised e
  end.

(** ** Strings *)

Module PyStr.

(** [s.startswith(p)] is [String.prefix p s]. *)

(** [sub in s] for two strings. *)
Fixpoint contains (sub s : string) : bool :=
  prefix sub s ||
  match s with
  | EmptyString => false
  | String _ s' => contains sub s'
  end.

(** [s.replace(old, "")] for a non-empty [old]: every occurrence found
    scanning from the left is dropped; [skip] counts the characters of
    the occurrence under the cursor that are still to be dropped. *)
Fixpoint remove_from (old : string) (skip : nat) (s : string) : string :=
  match s with
  | EmptyString => EmptyString
  | String c s' =>
      match skip with
      | S k => remove_from old k s'
      | O =>
          if prefix old s
          then remove_from old (Nat.pred (String.length old)) s'
          else String c (remove_from old 0 s')
      end
  end.

Definition remove_all (old s : string) : string := remove_from old 0 s.

(** [s.endswith(suf)]. *)
Definition endswith (s suf : string) : bool :=
  let n := String.length s in
  let k := String.length suf in
  (k <=? n)%nat && String.eqb (substring (n - k) k s) suf.

(** ASCII upper-casing: what [str.upper] does on ASCII text. *)
Definition upper_char (c : ascii) : ascii :=
  let n := nat_of_ascii c in
  if ((97 <=? n) && (n <=? 122))%nat then ascii_of_nat (n - 32) else c.

Fixpoint ascii_upper (s : string) : string :=
  match s with
  | EmptyString => EmptyString
  | String c s' => String (upper_char c) (ascii_upper s')
  end.

(** [str(n)] for an integer. *)
Definition of_Z (n : Z) : string := NilZero.string_of_int (Z.to_int n).

End PyStr.

(** ** JSON values and Python's view of them *)

(** The numbers [json.loads] returns: [int] for an integer literal, [float]
    (binary64) for the others and for [NaN], [Infinity], [-Infinity]. *)
Inductive pynum : Type :=
| NInt (z : Z)
| NFloat (f : spec_float).

Inductive json : Type :=
| JNull
| JBool (b : bool)
| JNum (n : pynum)
| JStr (s : string)
| JArr (items : list json)
| JObj (fields : list (string * json)).

Definition JInt (z : Z) : json := JNum (NInt z).

(** [bool(v)]. *)
Definition float_truthy (f : spec_float) : bool :=
  match f with
  | S754_zero _ => false
  | _ => true
  end.

Definition truthy (v : json) : bool :=
  match v with
  | JNull => false
  | JBool b => b
  | JNum (NInt z) => negb (z =? 0)
  | JNum (NFloat f) => float_truthy f
  | JStr s => negb (String.eqb s "")
  | JArr items => match items with [] => false | _ => true end
  | JObj fields => match fields with [] => false | _ => true end
  end.

(** Lookup in a JSON object. *)
Fixpoint assoc (k : string) (fields : list (string * json)) : option json :=
  match fields with
  | [] => None
  | (k', v) :: rest => if String.eqb k k' then Some v else assoc k rest
  end.

(** [needle in container], for a string [needle]. *)
Definition str_in (needle : string) (container : json) : outcome bool :=
  match container with
  | JObj fields =>
      Returned (match assoc needle fields with Some _ => true | None => false end)
  | JArr items =>
      Returned (existsb (fun x => match x with
                                  | JStr s => String.eqb needle s
                                  | _ => false
                                  end) items)
  | JStr s => Returned (PyStr.contains needle s)
  | JNull | JBool _ | JNum _ => Raised TypeError
  end.

(** [container[k]], for a string [k]. *)
Definition getitem (container : json) (k : string) : outcome json :=
  match container with
  | JObj fields =>
      match assoc k fields with
      | Some v => Returned v
      | None => Raised KeyError
      end
  | _ => Raised TypeError
  end.

(** [obj.get(k)] and [obj.get(k, default)]: only a [dict] has the method. *)
Definition get_method (obj : json) (k : string) (default : json) : outcome json :=
  match obj with
  | JObj fields =>
      Returned (match assoc k fields with Some v => v | None => default end)
  | _ => Raised AttributeError
  end.

(** ** Dictionary keys *)

(** A hashable JSON scalar up to Python's [==]: [True], [1] and [1.0] are
    one key.  A non-integral finite float is kept as sign, odd mantissa and
    exponent. *)
Inductive pykey : Type :=
| KNone
| KStr (s : string)
| KInt (z : Z)
| KFrac (neg : bool) (m : positive) (e : Z)
| KInf (neg : bool)
| KNaN.

Fixpoint strip_twos (m : positive) (e : Z) : positive * Z :=
  match m with
  | xO m' => strip_twos m' (e + 1)
  | _ => (m, e)
  end.

Definition float_key (f : spec_float) : pykey :=
  match f with
  | S754_zero _ => KInt 0
  | S754_infinity s => KInf s
  | S754_nan => KNaN
  | S754_finite s m e =>
      let '(m', e') := strip_twos m e in
      if 0 <=? e'
      then KInt ((if s then -1 else 1) * (Z.pos m' * 2 ^ e'))
      else KFrac s m' e'
  end.

(** The key [v] is stored under; [None] when [v] is unhashable. *)
Definition py_key (v : json) : option pykey :=
  match v with
  | JNull => Some KNone
  | JBool b => Some (KInt (if b then 1 else 0))
  | JNum (NInt z) => Some (KInt z)
  | JNum (NFloat f) => Some (float_key f)
  | JStr s => Some (KStr s)
  | JArr _ | JObj _ => None
  end.

Definition pykey_eq_dec (a b : pykey) : {a = b} + {a <> b}.
Proof.
  decide equality;
    first [ apply string_dec | apply Z.eq_dec | apply Pos.eq_dec | apply bool_dec ].
Defined.

Definition pykey_eqb (a b : pykey) : bool :=
  if pykey_eq_dec a b then true else false.

(** A Python [dict]: insertion-ordered bindings, one per key. *)
Module PyDict.

Definition t (V : Type) : Type := list (pykey * V).

(** [d.get(k)]. *)
Fixpoint get {V : Type} (k : pykey) (d : t V) : option V :=
  match d with
  | [] => None
  | (k', v) :: rest => if pykey_eqb k k' then Some v else get k rest
  end.

(** [d[k] = v]: the binding of [k] is replaced where it stands, a new key
    goes to the end. *)
Fixpoint set {V : Type} (k : pykey) (v : V) (d : t V) : t V :=
  match d with
  | [] => [(k, v)]
  | (k', v') :: rest =>
      if pykey_eqb k k' then (k', v) :: rest else (k', v') :: set k v rest
  end.

Definition keys {V : Type} (d : t V) : list pykey := map fst d.

End PyDict.

(** A Python [set] of strings, listed in iteration order.  Python fixes no
    order; every statement below that depends on it is made for an
    arbitrary list. *)
Module PySet.

Definition t : Type := list string.

Definition mem (x : string) (s : t) : bool :=
  existsb (String.eqb x) s.

Definition add (x : string) (s : t) : t :=
  if mem x s then s else (s ++ [x])%list.

(** [s.update(xs)]. *)
Definition update (s : t) (xs : list string) : t :=
  fold_left (fun acc x => add x acc) xs s.

(** [set(xs)]. *)
Definition of_list (xs : list string) : t := update [] xs.

End PySet.

(** ** The collector object *)

(** One [WebSocketApp] with the batch its callbacks close over. *)
Record ws_app : Type := mk_ws {
  ws_batch : list string;
  ws_batch_id : Z
}.

Record request_record : Type := mk_request {
  rr_username : string;
  rr_last_request : string;
  rr_timestamp : spec_float;
  rr_source : string
}.

Record collector : Type := mk_collector {
  current_data : PyDict.t json;
  ws_connections : list ws_app;
  is_connected : bool;
  available_tickers : PySet.t;
  subscribed_tickers : PySet.t;
  total_batches : Z;
  completed_batches : Z;
  user_requests : PyDict.t request_record
}.

(** [BybitDataCollector.__init__]. *)
Definition init : collector :=
  {| current_data := [];
     ws_connections := [];
     is_connected := false;
     available_tickers := [];
     subscribed_tickers := [];
     total_batches := 0;
     completed_batches := 0;
     user_requests := [] |}.

Definition set_current_data (d : PyDict.t json) (c : collector) : collector :=
  {| current_data := d;
     ws_connections := ws_connections c;
     is_connected := is_connected c;
     available_tickers := available_tickers c;
     subscribed_tickers := subscribed_tickers c;
     total_batches := total_batches c;
     completed_batches := completed_batches c;
     user_requests := user_requests c |}.

Definition set_ws_connections (l : list ws_app) (c : collector) : collector :=
  {| current_data := current_data c;
     ws_connections := l;
     is_connected := is_connected c;
     available_tickers := available_tickers c;
     subscribed_tickers := subscribed_tickers c;
     total_batches := total_batches c;
     completed_batches := completed_batches c;
     user_requests := user_requests c |}.

Definition set_available_tickers (s : PySet.t) (c : collector) : collector :=
  {| current_data := current_data c;
     ws_connections := ws_connections c;
     is_connected := is_connected c;
     available_tickers := s;
     subscribed_tickers := subscribed_tickers c;
     total_batches := total_batches c;
     completed_batches := completed_batches c;
     user_requests := user_requests c |}.

Definition set_subscribed_tickers (s : PySet.t) (c : collector) : collector :=
  {| current_data := current_data c;
     ws_connections := ws_connections c;
     is_connected := is_connected c;
     available_tickers := available_tickers c;
     subscribed_tickers := s;
     total_batches := total_batches c;
     completed_batches := completed_batches c;
     user_requests := user_requests c |}.

Definition set_total_batches (n : Z) (c : collector) : collector :=
  {| current_data := current_data c;
     ws_connections := ws_connections c;
     is_connected := is_connected c;
     available_tickers := available_tickers c;
     subscribed_tickers := subscribed_tickers c;
     total_batches := n;
     completed_batches := completed_batches c;
     user_requests := user_requests c |}.

Definition set_completed_batches (n : Z) (c : collector) : collector :=
  {| current_data := current_data c;
     ws_connections := ws_connections c;
     is_connected := is_connected c;
     available_tickers := available_tickers c;
     subscribed_tickers := subscribed_tickers c;
     total_batches := total_batches c;
     completed_batches := n;
     user_requests := user_requests c |}.

Definition set_user_requests (d : PyDict.t request_record) (c : collector) : collector :=
  {| current_data := current_data c;
     ws_connections := ws_connections c;
     is_connected := is_connected c;
     available_tickers := available_tickers c;
     subscribed_tickers := subscribed_tickers c;
     total_batches := total_batches c;
     completed_batches := completed_batches c;
     user_requests := d |}.

(** ** Methods that mutate [self] and may raise *)

(** A raise keeps the mutations made before it, as in Python. *)
Definition M (A : Type) : Type := collector -> outcome A * collector.

Definition ret {A : Type} (a : A) : M A := fun c => (Returned a, c).

Definition raise {A : Type} (e : pyerr) : M A := fun c => (Raised e, c).

Definition bind {A B : Type} (m : M A) (f : A -> M B) : M B :=
  fun c =>
    match m c with
    | (Returned a, c') => f a c'
    | (Raised e, c') => (Raised e, c')
    end.

Definition lift {A : Type} (x : outcome A) : M A := fun c => (x, c).

Definition read {A : Type} (f : collector -> A) : M A :=
  fun c => (Returned (f c), c).

Definition modify (f : collector -> collector) : M unit :=
  fun c => (Returned tt, f c).

(** [try: body / except Exception: handler]. *)
Definition try_except {A : Type} (body : M A) (handler : pyerr -> M A) : M A :=
  fun c =>
    match body c with
    | (Returned a, c') => (Returned a, c')
    | (Raised e, c') => handler e c'
    end.

Declare Scope py_scope.
Delimit Scope py_scope with py.
Notation "x <- m ;; k" := (bind m (fun x => k))
  (at level 61, m at next level, right associativity) : py_scope.
Notation "m ;;; k" := (bind m (fun _ => k))
  (at level 61, right associativity) : py_scope.
Open Scope py_scope.

(** [for x in xs: body(x)]. *)
Fixpoint for_each {A : Type} (xs : list A) (body : A -> M unit) : M unit :=
  match xs with
  | [] => ret tt
  | x :: rest => body x ;;; for_each rest body
  end.

(** The state a method leaves and what it returned. *)
Definition state_after {A : Type} (m : M A) (c : collector) : collector := snd (m c).
Definition result_of {A : Type} (m : M A) (c : collector) : outcome A := fst (m c).

(** ** [create_batches] *)

(** [range(start, stop, step)]: the loop index advances while it has not
    passed [stop]; [fuel] bounds the number of iterations. *)
Fixpoint range_up (fuel : nat) (i stop step : Z) : list Z :=
  match fuel with
  | O => []
  | S fuel' => if i <? stop then i :: range_up fuel' (i + step) stop step else []
  end.

Fixpoint range_down (fuel : nat) (i stop step : Z) : list Z :=
  match fuel with
  | O => []
  | S fuel' => if stop <? i then i :: range_down fuel' (i + step) stop step else []
  end.

Definition py_range (start stop step : Z) : outcome (list Z) :=
  if step =? 0 then Raised ValueError
  else if 0 <? step
       then Returned (range_up (Z.to_nat (stop - start)) start stop step)
       else Returned (range_down (Z.to_nat (start - stop)) start stop step).

(** A slice bound as Python clamps it: a negative bound counts from the
    end, and both ends stay within the list. *)
Definition clamp_index (n i : Z) : Z :=
  if i <? 0 then Z.max 0 (i + n) else Z.min i n.

(** [l[lo:hi]]. *)
Definition py_slice {A : Type} (l : list A) (lo hi : Z) : list A :=
  let n := Z.of_nat (List.length l) in
  let lo' := clamp_index n lo in
  let hi' := clamp_index n hi in
  firstn (Z.to_nat (hi' - lo')) (skipn (Z.to_nat lo') l).

Definition create_batches (tickers : list string) (batch_size : Z)
  : outcome (list (list string)) :=
  obind (py_range 0 (Z.of_nat (List.length tickers)) batch_size) (fun indices =>
  Returned (fold_left
              (fun batches i => (batches ++ [py_slice tickers i (i + batch_size)])%list)
              indices [])).

(** ** The callbacks of [start_websocket_for_batch] *)

(** A text frame as [json.loads] sees it. *)
Inductive frame : Type :=
| Unparsable
| Parsed (data : json).

Definition json_loads (message : frame) : outcome json :=
  match message with
  | Unparsable => Raised JSONDecodeError
  | Parsed data => Returned data
  end.

(** [k in d and test(d[k])], with Python's short circuit. *)
Definition in_and (k : string) (d : json) (test : json -> outcome bool) : outcome bool :=
  obind (str_in k d) (fun present =>
  if present then obind (getitem d k) test else Returned false).

(** The body shared by the two branches of [on_message]:
    [symbol = item.get('symbol')], then
    [if symbol: self.current_data[symbol] = item]. *)
Definition store_ticker (item : json) : M unit :=
  symbol <- lift (get_method item "symbol" JNull) ;;
  if truthy symbol
  then match py_key symbol with
       | Some k => modify (fun c => set_current_data (PyDict.set k item (current_data c)) c)
       | None => raise TypeError
       end
  else ret tt.

Definition on_message_body (message : frame) : M unit :=
  data <- lift (json_loads message) ;;
  is_ack <- lift (in_and "success" data (fun v => Returned (truthy v))) ;;
  if is_ack then ret tt
  else
    is_ticker <- lift (in_and "topic" data (str_in "tickers")) ;;
    if is_ticker
    then
      ticker_data <- lift (getitem data "data") ;;
      match ticker_data with
      | JObj _ => store_ticker ticker_data
      | JArr items => for_each items store_ticker
      | _ => ret tt
      end
    else ret tt.

Definition on_message (message : frame) : M unit :=
  try_except (on_message_body message) (fun _ => ret tt).

Definition on_error : M unit := ret tt.

Definition ws_app_eq_dec (a b : ws_app) : {a = b} + {a <> b}.
Proof.
  decide equality; [ apply Z.eq_dec | apply list_eq_dec, string_dec ].
Defined.

(** [list.remove(x)] once [x in list] is known: the first occurrence goes. *)
Fixpoint remove_first (ws : ws_app) (l : list ws_app) : list ws_app :=
  match l with
  | [] => []
  | x :: rest => if ws_app_eq_dec ws x then rest else x :: remove_first ws rest
  end.

Definition on_close (ws : ws_app) : M unit :=
  modify (fun c => set_ws_connections (remove_first ws (ws_connections c)) c).

(** The frame [on_open] hands to [ws.send]. *)
Definition subscribe_message (batch : list string) : json :=
  JObj [("op", JStr "subscribe");
        ("args", JArr (map (fun ticker => JStr ("tickers." ++ ticker)) batch))].

(** [on_open] returns the frame it sent. *)
Definition on_open (ws : ws_app) : M json :=
  modify (fun c =>
            set_subscribed_tickers (PySet.update (subscribed_tickers c) (ws_batch ws)) c) ;;;
  modify (fun c => set_completed_batches (completed_batches c + 1) c) ;;;
  ret (subscribe_message (ws_batch ws)).

Definition start_websocket_for_batch (batch : list string) (batch_id : Z) : M unit :=
  modify (fun c => set_ws_connections (ws_connections c ++ [mk_ws batch batch_id])%list c).

(** [for i, batch in enumerate(batches)], from index [i]. *)
Fixpoint start_each (i : Z) (batches : list (list string)) : M unit :=
  match batches with
  | [] => ret tt
  | batch :: rest => start_websocket_for_batch batch (i + 1) ;;; start_each (i + 1) rest
  end.

Definition start_all_websockets (tickers : list string) : M unit :=
  batches <- lift (create_batches tickers 10) ;;
  modify (set_total_batches (Z.of_nat (List.length batches))) ;;;
  start_each 0 batches.

(** ** Discovery *)

(** What [requests.get] and the parse of its body come to.  A body is
    either one on which [response.json()] or the comprehension over
    [data['result']['list']] raises [e], or a listing whose items expose
    the symbols given (the declared [List[str]]). *)
Inductive payload : Type :=
| Malformed (e : pyerr)
| InstrumentList (symbols : list string).

Inductive http_reply : Type :=
| NetworkFault
| Response (status_code : Z) (body : payload).

Definition fetch_spot_tickers (reply : http_reply) : M (list string) :=
  try_except
    (match reply with
     | NetworkFault => raise ConnectionError
     | Response status_code body =>
         if status_code =? 200
         then
           tickers <- lift (match body with
                            | Malformed e => Raised e
                            | InstrumentList symbols => Returned symbols
                            end) ;;
           modify (set_available_tickers (PySet.of_list tickers)) ;;;
           ret tickers
         else ret []
     end)
    (fun _ => ret []).

(** [start_collection] up to the point where it starts waiting for the
    batches to connect; the wait loop only reads and prints. *)
Definition start_collection (reply : http_reply) : M unit :=
  tickers <- fetch_spot_tickers reply ;;
  match tickers with
  | [] => ret tt
  | _ :: _ => start_all_websockets tickers
  end.

(** ** Resolution and lookup *)

(** What the interpreter and the C library contribute, left open:
    [str.upper] on arbitrary Unicode text, the rendering of local time
    and the parsing and formatting of binary64 numbers. *)
Record platform : Type := mk_platform {
  (** [s.upper()] *)
  upper : string -> string;
  (** [time.strftime('%Y-%m-%d %H:%M:%S', time.localtime(n / 1000))] *)
  strftime_localtime_ms : pynum -> outcome string;
  (** [f"{float(n) * 100:.2f}%"] for a number [n] *)
  percent_of_num : pynum -> outcome string;
  (** [f"{float(s) * 100:.2f}%"] for a string [s] *)
  percent_of_str : string -> outcome string
}.

Section Resolver.

(** [str.upper]. *)
Variable to_upper : string -> string.

(** [user_input.upper().replace(" ", "")]. *)
Definition normalize (user_input : string) : string :=
  PyStr.remove_all " " (to_upper user_input).

(** The [for ticker in self.subscribed_tickers] loop of [find_ticker]. *)
Fixpoint first_stripped_match (user_input : string) (tickers : list string)
  : option string :=
  match tickers with
  | [] => None
  | ticker :: rest =>
      if String.eqb user_input (PyStr.remove_all "USDT" ticker)
      then Some ticker
      else first_stripped_match user_input rest
  end.

Definition find_ticker (c : collector) (user_input : string) : string :=
  let user_input := normalize user_input in
  if PySet.mem user_input (subscribed_tickers c) then user_input
  else if negb (PyStr.endswith user_input "USDT")
          && PySet.mem (user_input ++ "USDT") (subscribed_tickers c)
  then user_input ++ "USDT"
  else match first_stripped_match user_input (subscribed_tickers c) with
       | Some ticker => ticker
       | None => user_input
       end.

End Resolver.

Section Queries.

Variable P : platform.

Definition log_user_request (user_id username message source : string)
           (now : spec_float) : M unit :=
  modify (fun c =>
            set_user_requests
              (PyDict.set (KStr user_id)
                          (mk_request username message now source)
                          (user_requests c)) c).

(** Truth value of an optional string argument ([None] by default). *)
Definition arg_truthy (a : option string) : bool :=
  match a with
  | Some s => negb (String.eqb s "")
  | None => false
  end.

(** The left operand of [data.get('ts', 0) / 1000]. *)
Definition dividend (v : json) : outcome pynum :=
  match v with
  | JBool b => Returned (NInt (if b then 1 else 0))
  | JNum n => Returned n
  | JNull | JStr _ | JArr _ | JObj _ => Raised TypeError
  end.

(** [f"{float(v) * 100:.2f}%"]. *)
Definition percent_string (v : json) : outcome string :=
  match v with
  | JBool b => percent_of_num P (NInt (if b then 1 else 0))
  | JNum n => percent_of_num P n
  | JStr s => percent_of_str P s
  | JNull | JArr _ | JObj _ => Raised TypeError
  end.

(** [v != 'N/A']. *)
Definition differs_from_na (v : json) : bool :=
  match v with
  | JStr s => negb (String.eqb s "N/A")
  | _ => true
  end.

Definition na : json := JStr "N/A".

(** The [if data:] branch of [get_ticker_data]. *)
Definition found_result (data : json) : outcome json :=
  obind (get_method data "symbol" na) (fun symbol =>
  obind (get_method data "lastPrice" na) (fun last_price =>
  obind (get_method data "price24hPcnt" na) (fun price_change_24h =>
  obind (get_method data "highPrice24h" na) (fun high_price_24h =>
  obind (get_method data "lowPrice24h" na) (fun low_price_24h =>
  obind (get_method data "volume24h" na) (fun volume_24h =>
  obind (get_method data "ts" JNull) (fun ts =>
  obind (if truthy ts
         then obind (get_method data "ts" (JInt 0)) (fun ts0 =>
              obind (dividend ts0) (fun n =>
              obind (strftime_localtime_ms P n) (fun s => Returned (JStr s))))
         else Returned na) (fun timestamp =>
  let result :=
    [("symbol", symbol);
     ("last_price", last_price);
     ("price_change_24h", price_change_24h);
     ("high_price_24h", high_price_24h);
     ("low_price_24h", low_price_24h);
     ("volume_24h", volume_24h);
     ("timestamp", timestamp)] in
  if differs_from_na price_change_24h
  then obind (percent_string price_change_24h) (fun pct =>
       Returned (JObj (result ++ [("price_change_percent_24h", JStr pct)])%list))
  else Returned (JObj result))))))))).

(** The [else] branch of [get_ticker_data]. *)
Definition not_found_result (c : collector) (symbol correct_symbol : string) : json :=
  JObj [("error", JStr ("Данные для " ++ symbol ++ " не найдены"));
        ("correct_symbol", JStr correct_symbol);
        ("tip", JStr ("Подписано тикетов: "
                      ++ PyStr.of_Z (Z.of_nat (List.length (subscribed_tickers c)))));
        ("progress", JStr ("Батчи: " ++ PyStr.of_Z (completed_batches c)
                           ++ "/" ++ PyStr.of_Z (total_batches c)))].

Definition get_ticker_data (symbol : string) (user_id username : option string)
           (source : string) (now : spec_float) : M json :=
  (if arg_truthy user_id && arg_truthy username
   then match user_id, username with
        | Some uid, Some name => log_user_request uid name symbol source now
        | _, _ => ret tt
        end
   else ret tt) ;;;
  correct_symbol <- read (fun c => find_ticker (upper P) c symbol) ;;
  data <- read (fun c => match PyDict.get (KStr correct_symbol) (current_data c) with
                         | Some d => d
                         | None => JNull
                         end) ;;
  if truthy data
  then lift (found_result data)
  else read (fun c => not_found_result c symbol correct_symbol).

End Queries.

(** ** Runs of the collector *)

(** The ticker objects [on_message] may look at in a frame: its [data]
    payload when that is an object, the elements of the payload when it
    is a list. *)
Definition frame_items (message : frame) : list json :=
  match message with
  | Parsed (JObj fields) =>
      match assoc "data" fields with
      | Some (JObj item) => [JObj item]
      | Some (JArr items) => items
      | _ => []
      end
  | _ => []
  end.

(** The venue answers for subscribed symbols only: every symbol a frame
    carries is a string among [subscribed_tickers]. *)
Definition names_subscribed (c : collector) (message : frame) : Prop :=
  forall fields symbol,
    In (JObj fields) (frame_items message) ->
    assoc "symbol" fields = Some symbol ->
    truthy symbol = true ->
    exists s, symbol = JStr s /\ In s (subscribed_tickers c).

Definition any_frame (c : collector) (message : frame) : Prop := True.

Section Runs.

Variable P : platform.

(** Which frames a connection may deliver in a given state. *)
Variable delivers : collector -> frame -> Prop.

(** One callback or call, run to completion. *)
Inductive step : collector -> collector -> Prop :=
| step_start (reply : http_reply) (c : collector) :
    step c (state_after (start_collection reply) c)
| step_open (ws : ws_app) (c : collector) :
    In ws (ws_connections c) ->
    step c (state_after (on_open ws) c)
| step_message (ws : ws_app) (message : frame) (c : collector) :
    In ws (ws_connections c) ->
    delivers c message ->
    step c (state_after (on_message message) c)
| step_error (ws : ws_app) (c : collector) :
    In ws (ws_connections c) ->
    step c (state_after on_error c)
| step_close (ws : ws_app) (c : collector) :
    In ws (ws_connections c) ->
    step c (state_after (on_close ws) c)
| step_query (symbol : string) (user_id username : option string)
             (source : string) (now : spec_float) (c : collector) :
    step c (state_after (get_ticker_data P symbol user_id username source now) c).

Inductive reachable : collector -> Prop :=
| reachable_init : reachable init
| reachable_step (c c' : collector) :
    reachable c -> step c c' -> reachable c'.

End Runs.

(** ** Shapes of frames and replies *)

(** An object with a truthy [symbol]: what the handler stores. *)
Definition is_ticker_object (v : json) : bool :=
  match v with
  | JObj fields =>
      match assoc "symbol" fields with
      | Some symbol => truthy symbol
      | None => false
      end
  | _ => false
  end.

(** A payload with no ticker object in it. *)
Definition carries_no_ticker (payload : json) : bool :=
  match payload with
  | JObj _ => negb (is_ticker_object payload)
  | JArr items => forallb (fun item => negb (is_ticker_object item)) items
  | _ => true
  end.

(** The payload of a frame that has the envelope of a ticker message:
    parsable, with a [topic] that contains [tickers], and with [data]. *)
Definition ticker_payload (message : frame) : option json :=
  match message with
  | Unparsable => None
  | Parsed data =>
      match in_and "topic" data (str_in "tickers") with
      | Returned true =>
          match getitem data "data" with
          | Returned payload => Some payload
          | Raised _ => None
          end
      | _ => None
      end
  end.

(** A frame the handler has nothing to take from. *)
Definition mismatched (message : frame) : bool :=
  match ticker_payload message with
  | None => true
  | Some payload => carries_no_ticker payload
  end.

(** Discovery did not yield a listing. *)
Definition discovery_failed (reply : http_reply) : bool :=
  match reply with
  | NetworkFault => true
  | Response status_code (Malformed _) => true
  | Response status_code (InstrumentList _) => negb (status_code =? 200)
  end.

(** Every binding of the store holds an object whose own [symbol] is the key
    it is stored under. *)
Definition self_consistent (d : PyDict.t json) : Prop :=
  forall k v,
    In (k, v) d ->
    exists fields symbol,
      v = JObj fields /\
      assoc "symbol" fields = Some symbol /\
      truthy symbol = true /\
      py_key symbol = Some k.

(** Every key of the store is a subscribed symbol. *)
Definition keys_subscribed (c : collector) : Prop :=
  forall k,
    In k (PyDict.keys (current_data c)) ->
    exists s, k = KStr s /\ In s (subscribed_tickers c).

(** The spec's reading of step 3 of the resolver, for comparison: a
    symbol with its [USDT] suffix, if it has one, taken off. *)
Definition spec_suffix_stripped (ticker : string) : string :=
  if PyStr.endswith ticker "USDT"
  then substring 0 (String.length ticker - 4) ticker
  else ticker.

(** The two derived fields of a found result, each on its own: the
    [timestamp], and the [price_change_percent_24h] entry if there is one. *)
Definition timestamp_field (P : platform) (fields : list (string * json)) : outcome json :=
  match assoc "ts" fields with
  | Some v =>
      if truthy v
      then obind (dividend v) (fun n =>
           obind (strftime_localtime_ms P n) (fun s => Returned (JStr s)))
      else Returned na
  | None => Returned na
  end.

Definition percent_field (P : platform) (fields : list (string * json))
  : outcome (option json) :=
  match assoc "price24hPcnt" fields with
  | Some v =>
      if differs_from_na v
      then obind (percent_string P v) (fun pct => Returned (Some (JStr pct)))
      else Returned None
  | None => Returned None
  end.

(** The snapshot's [ts] can be rendered: it is absent or falsy, or a
    number whose local time the platform formats. *)
Definition ts_renders (P : platform) (fields : list (string * json)) : Prop :=
  exists timestamp, timestamp_field P fields = Returned timestamp.

(** The snapshot's [price24hPcnt] can be rendered: it is absent or the
    string 'N/A', or a value [float] accepts. *)
Definition percent_renders (P : platform) (fields : list (string * json)) : Prop :=
  exists percent, percent_field P fields = Returned percent.

(** [ceil(n / k)] for [k > 0]. *)
Definition ceil_div (n k : Z) : Z := (n + k - 1) / k.

(** ** Sample data *)

Module Sample.

(** A platform fixed as far as the examples need it: ASCII text, and
    the one rendering [float("0.05") * 100 -> "5.00%"]. *)
Definition platform0 : platform :=
  {| upper := PyStr.ascii_upper;
     strftime_localtime_ms := fun _ => Raised OverflowError;
     percent_of_num := fun _ => Raised OverflowError;
     percent_of_str := fun s => if String.eqb s "0.05"
                                then Returned "5.00%"
                                else Raised ValueError |}.

Definition universe : list string := ["BTCUSDT"; "ETHUSDT"; "ADAUSDT"].

Definition ws1 : ws_app := mk_ws universe 1.

(** After discovery of [universe] and the start of its one batch. *)
Definition started : collector :=
  state_after (start_collection (Response 200 (InstrumentList universe))) init.

(** After the batch connected. *)
Definition opened : collector := state_after (on_open ws1) started.

(** The venue's acknowledgment of a subscribe request. *)
Definition ack : frame :=
  Parsed (JObj [("success", JBool true); ("ret_msg", JStr "subscribe");
                ("conn_id", JStr "c1"); ("op", JStr "subscribe")]).

Definition btc_fields : list (string * json) :=
  [("symbol", JStr "BTCUSDT"); ("lastPrice", JStr "50000");
   ("price24hPcnt", JStr "0.05")].

Definition btc : json := JObj btc_fields.

Definition ticker_frame (topic : string) (payload : json) : frame :=
  Parsed (JObj [("topic", JStr topic); ("data", payload)]).

Definition btc_frame : frame := ticker_frame "tickers.BTCUSDT" btc.

(** After the first ticker of BTCUSDT arrived. *)
Definition streaming : collector := state_after (on_message btc_frame) opened.

(** A ticker of a symbol outside [universe], and the state after its
    arrival on the connected batch. *)
Definition doge_frame : frame :=
  ticker_frame "tickers.DOGEUSDT" (JObj [("symbol", JStr "DOGEUSDT")]).

Definition stray : collector := state_after (on_message doge_frame) opened.

Definition t0 : spec_float := S754_zero false.

(** A ticker without [price24hPcnt] and without [ts]. *)
Definition ada_fields : list (string * json) :=
  [("symbol", JStr "ADAUSDT"); ("lastPrice", JStr "0.5")].

(** A ticker whose [price24hPcnt] is [null]. *)
Definition null_percent_fields : list (string * json) :=
  [("symbol", JStr "ADAUSDT"); ("price24hPcnt", JNull)].

(** A ticker whose [ts] is a string of digits. *)
Definition text_ts_fields : list (string * json) :=
  [("symbol", JStr "ETHUSDT"); ("lastPrice", JStr "3000");
   ("ts", JStr "1700000000000")].

Definition after_ticker (topic : string) (fields : list (string * json)) : collector :=
  state_after (on_message (ticker_frame topic (JObj fields))) opened.

End Sample.

(** ** Statistics and the bot's reply *)

(** [get_stats]. *)
Definition get_stats : M json :=
  read (fun c =>
    JObj [("available_tickers", JInt (Z.of_nat (List.length (available_tickers c))));
          ("subscribed_tickers", JInt (Z.of_nat (List.length (subscribed_tickers c))));
          ("current_data", JInt (Z.of_nat (List.length (current_data c))));
          ("active_connections", JInt (Z.of_nat (List.length (ws_connections c))));
          ("batch_progress", JStr (PyStr.of_Z (completed_batches c) ++ "/"
                                   ++ PyStr.of_Z (total_batches c)));
          ("user_requests_count", JInt (Z.of_nat (List.length (user_requests c))))]).

Section Bot.

Variable P : platform.

(** [f"{v}"] for a value that is not a string. *)
Variable format_other : json -> string.

(** [f"{v}"]. *)
Definition format_value (v : json) : string :=
  match v with
  | JStr s => s
  | _ => format_other v
  end.

Definition newline : string := String (ascii_of_nat 10) EmptyString.

(** The text [send_ticker_data] builds from what the lookup returned. *)
Definition response_text (ticker_data : json) : outcome string :=
  obind (str_in "error" ticker_data) (fun is_error =>
  if is_error
  then
    obind (getitem ticker_data "error") (fun error =>
    obind (get_method ticker_data "tip" (JStr "")) (fun tip =>
    Returned ("❌ " ++ format_value error ++ newline ++ newline
              ++ "💡 Подсказка: " ++ format_value tip)))
  else
    obind (getitem ticker_data "symbol") (fun symbol =>
    obind (getitem ticker_data "last_price") (fun last_price =>
    obind (get_method ticker_data "price_change_percent_24h" na) (fun percent =>
    obind (getitem ticker_data "high_price_24h") (fun high =>
    obind (getitem ticker_data "low_price_24h") (fun low =>
    obind (getitem ticker_data "volume_24h") (fun volume =>
    obind (getitem ticker_data "timestamp") (fun timestamp =>
    Returned ("📊 " ++ format_value symbol ++ newline ++ newline
              ++ "💵 Цена: " ++ format_value last_price ++ newline
              ++ "📈 Изменение 24h: " ++ format_value percent ++ newline
              ++ "🔼 Макс 24h: " ++ format_value high ++ newline
              ++ "🔽 Мин 24h: " ++ format_value low ++ newline
              ++ "📊 Объем 24h: " ++ format_value volume ++ newline
              ++ "🕐 Обновлено: " ++ format_value timestamp))))))))).

(** [TelegramBot.send_ticker_data] for the user with id [user_id] and
    first name [first_name]; it returns the text handed to [reply_to]. *)
Definition send_ticker_data (user_id : Z) (first_name : string) (ticker_symbol : string)
           (now : spec_float) : M string :=
  ticker_data <- get_ticker_data P ticker_symbol (Some (PyStr.of_Z user_id))
                                 (Some first_name) "TG" now ;;
  lift (response_text ticker_data).

End Bot.

(** ** Runs with one discovery *)

Section StartedRuns.

Variable P : platform.
Variable delivers : collector -> frame -> Prop.

(** A callback of a connection, or a query: every step but the start. *)
Inductive callback : collector -> collector -> Prop :=
| callback_open (ws : ws_app) (c : collector) :
    In ws (ws_connections c) ->
    callback c (state_after (on_open ws) c)
| callback_message (ws : ws_app) (message : frame) (c : collector) :
    In ws (ws_connections c) ->
    delivers c message ->
    callback c (state_after (on_message message) c)
| callback_error (ws : ws_app) (c : collector) :
    In ws (ws_connections c) ->
    callback c (state_after on_error c)
| callback_close (ws : ws_app) (c : collector) :
    In ws (ws_connections c) ->
    callback c (state_after (on_close ws) c)
| callback_query (symbol : string) (user_id username : option string)
                 (source : string) (now : spec_float) (c : collector) :
    callback c (state_after (get_ticker_data P symbol user_id username source now) c).

(** The states of a process as [main] runs it: [start_collection] once on
    the fresh collector, callbacks and queries after it. *)
Inductive started : collector -> Prop :=
| started_first (reply : http_reply) :
    started (state_after (start_collection reply) init)
| started_next (c c' : collector) :
    started c -> callback c c' -> started c'.

(** Any number of steps, from any state. *)
Inductive steps : collector -> collector -> Prop :=
| steps_none (c : collector) : steps c c
| steps_next (c c' c'' : collector) :
    steps c c' -> step P delivers c' c'' -> steps c c''.

End StartedRuns.

(** The connections [start_all_websockets] opens for [batches], the first
    with batch id [first]. *)
Fixpoint connections_for (first : Z) (batches : list (list string)) : list ws_app :=
  match batches with
  | [] => []
  | batch :: rest => mk_ws batch first :: connections_for (first + 1) rest
  end.

(** The symbol a well-formed ticker object is stored under. *)
Definition symbol_of (item : json) : option string :=
  match item with
  | JObj fields =>
      match assoc "symbol" fields with
      | Some (JStr s) => if String.eqb s "" then None else Some s
      | _ => None
      end
  | _ => None
  end.

(** A frame with the envelope of a ticker message. *)
Definition ticker_message (topic : string) (payload : json) : frame :=
  Parsed (JObj [("topic", JStr topic); ("data", payload)]).

(** What a process started once keeps true of its collector: the sets list
    each symbol once; only discovered symbols are subscribed or assigned to
    a connection; a connection carries one to ten symbols and is listed
    once; no more connections are active than batches were made; the
    counter of completed batches is not negative. *)
Definition coherent (c : collector) : Prop :=
  NoDup (available_tickers c) /\
  NoDup (subscribed_tickers c) /\
  (forall s, In s (subscribed_tickers c) -> In s (available_tickers c)) /\
  (forall ws, In ws (ws_connections c) ->
              1 <= Z.of_nat (List.length (ws_batch ws)) <= 10 /\
              forall ticker, In ticker (ws_batch ws) -> In ticker (available_tickers c)) /\
  NoDup (ws_connections c) /\
  Z.of_nat (List.length (ws_connections c)) <= total_batches c /\
  0 <= completed_batches c.

(** Whether [store_ticker] raises on an element: it does on anything but
    an object, and on an object whose truthy symbol is unhashable. *)
Definition store_raises (item : json) : bool :=
  match item with
  | JObj fields =>
      match assoc "symbol" fields with
      | Some symbol =>
          truthy symbol && match py_key symbol with Some _ => false | None => true end
      | None => false
      end
  | _ => true
  end.

(** * Properties *)

(** ** Dictionaries *)

Lemma pykey_eqb_eq (a b : pykey) : pykey_eqb a b = true <-> a = b.
Proof.
  unfold pykey_eqb. destruct (pykey_eq_dec a b); split; congruence.
Qed.

Lemma pykey_eqb_refl (a : pykey) : pykey_eqb a a = true.
Proof. now apply pykey_eqb_eq. Qed.

Lemma dict_get_set_same {V : Type} (k : pykey) (v : V) (d : PyDict.t V) :
  PyDict.get k (PyDict.set k v d) = Some v.
Proof.
  induction d as [| [k' v'] rest IH]; simpl.
  - now rewrite pykey_eqb_refl.
  - destruct (pykey_eqb k k') eqn:E; simpl; rewrite E; [reflexivity | exact IH].
Qed.

Lemma dict_get_set_other {V : Type} (k k' : pykey) (v : V) (d : PyDict.t V) :
  k' <> k -> PyDict.get k' (PyDict.set k v d) = PyDict.get k' d.
Proof.
  intros Hne. induction d as [| [k0 v0] rest IH]; simpl.
  - destruct (pykey_eqb k' k) eqn:E; [apply pykey_eqb_eq in E; contradiction | reflexivity].
  - destruct (pykey_eqb k k0) eqn:E; simpl.
    + apply pykey_eqb_eq in E. subst k0.
      destruct (pykey_eqb k' k) eqn:E'; [apply pykey_eqb_eq in E'; contradiction | reflexivity].
    + destruct (pykey_eqb k' k0); [reflexivity | exact IH].
Qed.

(** A binding found after [d[k] = v] is the new one or an old one. *)
Lemma dict_in_set {V : Type} (k : pykey) (v : V) (d : PyDict.t V) (b : pykey * V) :
  In b (PyDict.set k v d) -> b = (k, v) \/ In b d.
Proof.
  induction d as [| [k' v'] rest IH]; simpl.
  - intros [H | []]. now left.
  - destruct (pykey_eqb k k') eqn:E; simpl.
    + apply pykey_eqb_eq in E. subst k'. intros [H | H]; [now left | right; now right].
    + intros [H | H]; [right; now left |].
      destruct (IH H) as [H' | H']; [now left | right; now right].
Qed.

Lemma set_current_data_same (c : collector) : set_current_data (current_data c) c = c.
Proof. now destruct c. Qed.

Lemma set_current_data_twice (d d' : PyDict.t json) (c : collector) :
  set_current_data d' (set_current_data d c) = set_current_data d' c.
Proof. reflexivity. Qed.

(** ** The message handler touches the store only, one ticker at a time *)

Section HandlerFrame.

(** A property of the store that survives the upsert of any ticker
    object taken from [items]. *)
Variable Inv : PyDict.t json -> Prop.
Variable items : list json.

Hypothesis Inv_upsert :
  forall d fields symbol k,
    In (JObj fields) items ->
    Inv d ->
    assoc "symbol" fields = Some symbol ->
    truthy symbol = true ->
    py_key symbol = Some k ->
    Inv (PyDict.set k (JObj fields) d).

Lemma store_ticker_frame (item : json) (c : collector) :
  In item items ->
  Inv (current_data c) ->
  exists d, state_after (store_ticker item) c = set_current_data d c /\ Inv d.
Proof.
  intros Hin HI. unfold state_after, store_ticker, bind, lift.
  destruct item as [| b | n | s | l | fields]; simpl;
    try (exists (current_data c); now rewrite set_current_data_same).
  destruct (assoc "symbol" fields) as [symbol |] eqn:Hsym; simpl.
  - destruct (truthy symbol) eqn:Ht; simpl;
      [| exists (current_data c); now rewrite set_current_data_same].
    destruct (py_key symbol) as [k |] eqn:Hk; simpl;
      [| exists (current_data c); now rewrite set_current_data_same].
    eexists. split; [reflexivity |]. now apply (Inv_upsert _ _ symbol).
  - exists (current_data c); now rewrite set_current_data_same.
Qed.

Lemma for_each_store_frame (l : list json) (c : collector) :
  incl l items ->
  Inv (current_data c) ->
  exists d, state_after (for_each l store_ticker) c = set_current_data d c /\ Inv d.
Proof.
  revert c. induction l as [| item rest IH]; intros c Hincl HI.
  - exists (current_data c). now rewrite set_current_data_same.
  - assert (Hitem : In item items) by (apply Hincl; now left).
    assert (Hrest : incl rest items) by (intros x Hx; apply Hincl; now right).
    destruct (store_ticker_frame item c Hitem HI) as (d & Hd & HId).
    unfold state_after in *. simpl. unfold bind at 1.
    destruct (store_ticker item c) as [[[] | e] c1] eqn:E; simpl in Hd; subst c1.
    + destruct (IH (set_current_data d c) Hrest HId) as (d' & Hd' & HId').
      exists d'. now rewrite Hd'.
    + now exists d.
Qed.

End HandlerFrame.

Lemma on_message_frame (Inv : PyDict.t json -> Prop) (message : frame) (c : collector) :
  (forall d fields symbol k,
      In (JObj fields) (frame_items message) ->
      Inv d ->
      assoc "symbol" fields = Some symbol ->
      truthy symbol = true ->
      py_key symbol = Some k ->
      Inv (PyDict.set k (JObj fields) d)) ->
  Inv (current_data c) ->
  exists d, on_message message c = (Returned tt, set_current_data d c) /\ Inv d.
Proof.
  intros Hup HI.
  assert (Hsame : exists d, set_current_data d c = c /\ Inv d)
    by (exists (current_data c); split; [apply set_current_data_same | exact HI]).
  unfold on_message, try_except, on_message_body, bind, lift, ret.
  destruct message as [| data]; simpl.
  { destruct Hsame as (d & Hd & HId). exists d. now rewrite Hd. }
  destruct (in_and "success" data (fun v => Returned (truthy v))) as [[|] | e]; simpl;
    try (destruct Hsame as (d & Hd & HId); exists d; now rewrite Hd).
  destruct (in_and "topic" data (str_in "tickers")) as [[|] | e]; simpl;
    try (destruct Hsame as (d & Hd & HId); exists d; now rewrite Hd).
  destruct data as [| b | n | s | l | fields]; simpl;
    try (destruct Hsame as (d & Hd & HId); exists d; now rewrite Hd).
  simpl in Hup.
  destruct (assoc "data" fields) as [payload |] eqn:Hp; simpl;
    [| destruct Hsame as (d & Hd & HId); exists d; now rewrite Hd].
  destruct payload as [| b | n | s | l | item]; simpl;
    try (destruct Hsame as (d & Hd & HId); exists d; now rewrite Hd).
  - destruct (for_each_store_frame Inv l Hup l c (incl_refl _) HI) as (d & Hd & HId).
    unfold state_after in Hd.
    destruct (for_each l store_ticker c) as [[[] | e] c1]; simpl in Hd; subst c1;
      now exists d.
  - destruct (store_ticker_frame Inv [JObj item] Hup (JObj item) c (or_introl eq_refl) HI)
      as (d & Hd & HId).
    unfold state_after in Hd.
    destruct (store_ticker (JObj item) c) as [[[] | e] c1]; simpl in Hd; subst c1;
      now exists d.
Qed.

(** ** What each method leaves alone *)

Lemma pyset_mem_in (x : string) (s : PySet.t) : PySet.mem x s = true <-> In x s.
Proof.
  unfold PySet.mem. rewrite existsb_exists. split.
  - intros (y & Hy & E). apply String.eqb_eq in E. now subst.
  - intros H. exists x. split; [exact H | apply String.eqb_refl].
Qed.

Lemma pyset_add_keeps (x y : string) (s : PySet.t) : In y s -> In y (PySet.add x s).
Proof.
  intros H. unfold PySet.add. destruct (PySet.mem x s); [exact H |].
  apply in_or_app. now left.
Qed.

Lemma pyset_update_keeps (xs : list string) (y : string) (s : PySet.t) :
  In y s -> In y (PySet.update s xs).
Proof.
  unfold PySet.update. revert s.
  induction xs as [| x rest IH]; intros s H; simpl; [exact H |].
  apply IH. now apply pyset_add_keeps.
Qed.

Lemma start_each_state (batches : list (list string)) (i : Z) (c : collector) :
  exists l, start_each i batches c = (Returned tt, set_ws_connections l c).
Proof.
  revert i c. induction batches as [| batch rest IH]; intros i c; simpl.
  - exists (ws_connections c). now destruct c.
  - unfold bind, start_websocket_for_batch, modify.
    destruct (IH (i + 1) (set_ws_connections (ws_connections c ++ [mk_ws batch (i + 1)])%list c))
      as (l & Hl).
    rewrite Hl. now exists l.
Qed.

(** Starting the collection changes [available_tickers], [total_batches]
    and [ws_connections] at most. *)
Lemma start_collection_state (reply : http_reply) (c : collector) :
  let c' := state_after (start_collection reply) c in
  current_data c' = current_data c /\
  subscribed_tickers c' = subscribed_tickers c /\
  completed_batches c' = completed_batches c /\
  user_requests c' = user_requests c.
Proof.
  unfold state_after, start_collection, fetch_spot_tickers, try_except, bind, lift, ret, modify.
  destruct reply as [| code body]; simpl; [now repeat split |].
  destruct (code =? 200); simpl; [| now repeat split].
  destruct body as [e | symbols]; simpl; [now repeat split |].
  destruct symbols as [| s rest]; simpl; [now repeat split |].
  unfold start_all_websockets, bind, lift, modify.
  destruct (create_batches (s :: rest) 10) as [batches | e]; simpl; [| now repeat split].
  match goal with
  | |- context [start_each 0 batches ?c0] =>
      destruct (start_each_state batches 0 c0) as (l & Hl); rewrite Hl
  end.
  simpl. now repeat split.
Qed.

(** A query changes [user_requests] at most. *)
Lemma get_ticker_data_state (P : platform) (symbol : string) (user_id username : option string)
      (source : string) (now : spec_float) (c : collector) :
  exists d, state_after (get_ticker_data P symbol user_id username source now) c
            = set_user_requests d c.
Proof.
  assert (Hsame : set_user_requests (user_requests c) c = c) by now destruct c.
  unfold state_after, get_ticker_data, bind, read, lift, ret, log_user_request, modify.
  destruct (arg_truthy user_id && arg_truthy username);
    [destruct user_id as [uid |]; [destruct username as [name |] |] |]; simpl;
    match goal with
    | |- context [if ?b then _ else _] => destruct b
    end; simpl; eexists; first [reflexivity | symmetry; exact Hsame].
Qed.

(** ** The completed-batch counter *)

(** C1, as the code has it: the completed-batch counter goes up by exactly
    one in [on_open], that is when the transport connects and the subscribe
    request has been sent; no inbound frame, the venue's acknowledgment
    included, changes it, so an acknowledgment delivered once, twice or
    never leaves the counter where [on_open] put it. *)
Theorem completed_batches_counts_opens (ws : ws_app) (message : frame) (c : collector) :
  completed_batches (state_after (on_open ws) c) = completed_batches c + 1 /\
  completed_batches (state_after (on_message message) c) = completed_batches c /\
  completed_batches (state_after (on_message message) (state_after (on_message message) c))
  = completed_batches c.
Proof.
  assert (Hmsg : forall c0, completed_batches (state_after (on_message message) c0)
                            = completed_batches c0).
  { intros c0.
    destruct (on_message_frame (fun _ => True) message c0) as (d & Hd & _); [tauto | exact I |].
    unfold state_after. now rewrite Hd. }
  split; [reflexivity |]. split; [apply Hmsg |]. now rewrite !Hmsg.
Qed.

(** C1 fails as stated: the counter is already 1 once the batch has
    connected, before any acknowledgment, and stays where it was when the
    acknowledgment arrives, whether the batch has connected or not. *)
Lemma ack_is_not_counted :
  completed_batches Sample.started = 0 /\
  completed_batches Sample.opened = 1 /\
  completed_batches (state_after (on_message Sample.ack) Sample.opened) = 1 /\
  completed_batches (state_after (on_message Sample.ack) Sample.started) = 0.
Proof. repeat split; reflexivity. Qed.

(** ** Frames with nothing to store *)

Lemma store_ticker_skips (item : json) (c : collector) :
  is_ticker_object item = false ->
  state_after (store_ticker item) c = c /\
  (result_of (store_ticker item) c = Returned tt \/
   result_of (store_ticker item) c = Raised AttributeError).
Proof.
  unfold state_after, result_of, store_ticker, bind, lift, is_ticker_object.
  destruct item as [| b | n | s | l | fields]; simpl; try (intros _; split; [reflexivity | now right]).
  destruct (assoc "symbol" fields) as [symbol |]; simpl.
  - intros ->. split; [reflexivity | now left].
  - intros _. split; [reflexivity | now left].
Qed.

Lemma for_each_skips (l : list json) (c : collector) :
  forallb (fun item => negb (is_ticker_object item)) l = true ->
  state_after (for_each l store_ticker) c = c.
Proof.
  induction l as [| item rest IH]; simpl; [reflexivity |].
  intros H. apply andb_prop in H. destruct H as [Hitem Hrest].
  apply negb_true_iff in Hitem.
  destruct (store_ticker_skips item c Hitem) as [Hs Hr].
  unfold state_after, result_of, bind in *.
  destruct (store_ticker item c) as [[[] | e] c1]; simpl in *; subst c1;
    [now apply IH | reflexivity].
Qed.

(** C7, as the code has it: whatever the frame, [on_message] raises
    nothing and changes no field but the store (no counter moves); and the
    store too is left as it was by a mismatched frame: one that is
    unparsable, that has no topic naming [tickers] or no [data], or whose
    payload holds no ticker object at all (it is not an object with a
    symbol, and if it is a list none of its elements is one). *)
Theorem on_message_silent (message : frame) (c : collector) :
  result_of (on_message message) c = Returned tt /\
  state_after (on_message message) c
  = set_current_data (current_data (state_after (on_message message) c)) c /\
  (mismatched message = true -> state_after (on_message message) c = c).
Proof.
  destruct (on_message_frame (fun _ => True) message c) as (d & Hd & _); [tauto | exact I |].
  split; [unfold result_of; now rewrite Hd |].
  split; [unfold state_after; now rewrite Hd |].
  clear d Hd. unfold mismatched, ticker_payload, state_after.
  unfold on_message, try_except, on_message_body, bind, lift, ret.
  destruct message as [| data]; simpl; [reflexivity |].
  destruct (in_and "success" data (fun v => Returned (truthy v))) as [[|] | e]; simpl;
    try reflexivity.
  destruct (in_and "topic" data (str_in "tickers")) as [[|] | e]; simpl; try reflexivity.
  destruct (getitem data "data") as [payload | e]; simpl; [| reflexivity].
  destruct payload as [| b | n | s | l | item]; simpl; try reflexivity.
  - intros H. pose proof (for_each_skips l c H) as Hl. unfold state_after in Hl.
    destruct (for_each l store_ticker c) as [[[] | e] c1]; simpl in *; now subst.
  - intros H. apply negb_true_iff in H.
    destruct (store_ticker_skips (JObj item) c H) as [Hs _]. unfold state_after in Hs.
    destruct (store_ticker (JObj item) c) as [[[] | e] c1]; simpl in *; now subst.
Qed.

Lemma on_message_silent_witness :
  mismatched Unparsable = true /\
  state_after (on_message Unparsable) Sample.streaming = Sample.streaming.
Proof.
  split; [reflexivity |].
  exact (proj2 (proj2 (on_message_silent Unparsable Sample.streaming)) eq_refl).
Defined.

(** C7 fails as stated: a list payload whose first element is a ticker
    object and whose second is the number 5 is not a list of ticker
    objects, yet the first element is in the store when the handler
    returns. *)
Lemma mixed_list_is_half_stored :
  current_data Sample.opened = [] /\
  current_data
    (state_after
       (on_message (Sample.ticker_frame "tickers.BTCUSDT" (JArr [Sample.btc; JInt 5])))
       Sample.opened)
  = [(KStr "BTCUSDT", Sample.btc)].
Proof. split; reflexivity. Qed.

(** ** Read your write *)

(** C9: after [self.current_data[symbol] = snapshot], whatever the store
    held, [self.current_data.get(symbol)] is that snapshot; and so it is
    after the handler's own upsert of a ticker object, read under the
    symbol the object carries. *)
Theorem upsert_then_get (c : collector) (k : pykey) (snapshot : json)
        (fields : list (string * json)) (s : string) :
  PyDict.get k (current_data (set_current_data (PyDict.set k snapshot (current_data c)) c))
  = Some snapshot /\
  (assoc "symbol" fields = Some (JStr s) ->
   s <> "" ->
   PyDict.get (KStr s) (current_data (state_after (store_ticker (JObj fields)) c))
   = Some (JObj fields)).
Proof.
  split; [apply dict_get_set_same |].
  intros Hsym Hs.
  unfold state_after, store_ticker, bind, lift. simpl. rewrite Hsym. simpl.
  destruct (String.eqb s "") eqn:E; [apply String.eqb_eq in E; contradiction |].
  simpl. apply dict_get_set_same.
Qed.

Lemma upsert_then_get_witness :
  PyDict.get (KStr "BTCUSDT")
             (current_data (state_after (store_ticker Sample.btc) Sample.streaming))
  = Some Sample.btc.
Proof.
  refine (proj2 (upsert_then_get Sample.streaming KNone JNull Sample.btc_fields "BTCUSDT")
                eq_refl _).
  discriminate.
Defined.

(** ** Invariants of the store *)

Lemma in_keys_set {V : Type} (k k' : pykey) (v : V) (d : PyDict.t V) :
  In k' (PyDict.keys (PyDict.set k v d)) -> k' = k \/ In k' (PyDict.keys d).
Proof.
  unfold PyDict.keys. intros H. apply in_map_iff in H. destruct H as ([k0 v0] & Hk & Hin).
  simpl in Hk. subst k0. apply dict_in_set in Hin. destruct Hin as [Heq | Hin].
  - left. congruence.
  - right. apply in_map_iff. now exists (k', v0).
Qed.

Lemma self_consistent_upsert (d : PyDict.t json) (fields : list (string * json))
      (symbol : json) (k : pykey) :
  self_consistent d ->
  assoc "symbol" fields = Some symbol ->
  truthy symbol = true ->
  py_key symbol = Some k ->
  self_consistent (PyDict.set k (JObj fields) d).
Proof.
  intros Hd Hsym Ht Hk k' v Hin. apply dict_in_set in Hin. destruct Hin as [Heq | Hin].
  - inversion Heq; subst. now exists fields, symbol.
  - now apply Hd.
Qed.

Section Invariants.

Variable P : platform.
Variable delivers : collector -> frame -> Prop.

(** A step that is not a message leaves the store alone and forgets no
    subscribed symbol. *)
Lemma step_store (c c' : collector) :
  step P delivers c c' ->
  (exists message, c' = state_after (on_message message) c /\ delivers c message) \/
  (current_data c' = current_data c /\
   forall s, In s (subscribed_tickers c) -> In s (subscribed_tickers c')).
Proof.
  intros [reply c0 | ws c0 Hws | ws message c0 Hws Hd | ws c0 Hws | ws c0 Hws
         | symbol user_id username source now c0].
  - right. destruct (start_collection_state reply c0) as (H1 & H2 & _).
    split; [exact H1 |]. intros s. now rewrite H2.
  - right. split; [reflexivity |]. intros s. simpl. apply pyset_update_keeps.
  - left. now exists message.
  - right. now split.
  - right. now split.
  - right. destruct (get_ticker_data_state P symbol user_id username source now c0) as (d & Hd).
    rewrite Hd. now split.
Qed.

End Invariants.

(** The run of the samples: discovery, start, connect, first ticker. *)
Lemma sample_run (P : platform) (delivers : collector -> frame -> Prop) (message : frame) :
  delivers Sample.opened message ->
  reachable P delivers (state_after (on_message message) Sample.opened).
Proof.
  intros Hd.
  assert (Hws : In Sample.ws1 (ws_connections Sample.started)) by (now left).
  eapply reachable_step; [| apply (step_message P delivers Sample.ws1); [exact Hws | exact Hd]].
  eapply reachable_step; [| apply (step_open P delivers Sample.ws1); exact Hws].
  eapply reachable_step; [apply reachable_init |].
  apply (step_start P delivers (Response 200 (InstrumentList Sample.universe))).
Qed.

(** C10: in every state a run can reach, whatever frames the connections
    deliver, each binding of the store holds an object whose own [symbol]
    field is present, truthy, and is the key of the binding. *)
Theorem stored_snapshots_self_consistent (P : platform)
        (delivers : collector -> frame -> Prop) (c : collector) :
  reachable P delivers c -> self_consistent (current_data c).
Proof.
  induction 1 as [| c c' Hreach IH Hstep].
  - intros k v [].
  - destruct (step_store P delivers c c' Hstep) as [(message & -> & _) | (Hsame & _)].
    + destruct (on_message_frame self_consistent message c) as (d & Hd & HId).
      * intros d fields symbol k _. apply self_consistent_upsert.
      * exact IH.
      * unfold state_after. now rewrite Hd.
    + now rewrite Hsame.
Qed.

Lemma stored_snapshots_self_consistent_witness :
  reachable Sample.platform0 any_frame Sample.streaming /\
  self_consistent (current_data Sample.streaming).
Proof.
  assert (H : reachable Sample.platform0 any_frame Sample.streaming)
    by (apply sample_run; exact I).
  split; [exact H |].
  exact (stored_snapshots_self_consistent Sample.platform0 any_frame Sample.streaming H).
Defined.

(** C5, as the code has it: the handler stores a ticker under the symbol
    the frame carries and never consults [subscribed_tickers]; the keys of
    the store are subscribed symbols in every state reached by a run in
    which the venue delivers only tickers of symbols already subscribed. *)
Theorem store_keys_subscribed (P : platform) (c : collector) :
  reachable P names_subscribed c -> keys_subscribed c.
Proof.
  induction 1 as [| c c' Hreach IH Hstep].
  - intros k [].
  - destruct (step_store P names_subscribed c c' Hstep)
      as [(message & -> & Hnames) | (Hsame & Hmono)].
    + destruct (on_message_frame
                  (fun d => forall k, In k (PyDict.keys d) ->
                                      exists s, k = KStr s /\ In s (subscribed_tickers c))
                  message c) as (d & Hd & HId).
      * intros d fields symbol k Hin Hinv Hsym Ht Hk k' Hk'.
        apply in_keys_set in Hk'. destruct Hk' as [-> | Hold]; [| now apply Hinv].
        destruct (Hnames fields symbol Hin Hsym Ht) as (s & -> & Hs).
        simpl in Hk. inversion Hk. now exists s.
      * exact IH.
      * unfold keys_subscribed, state_after. rewrite Hd. exact HId.
    + intros k Hk. rewrite Hsame in Hk. destruct (IH k Hk) as (s & -> & Hs).
      exists s. split; [reflexivity | now apply Hmono].
Qed.

Lemma sample_frame_names_subscribed : names_subscribed Sample.opened Sample.btc_frame.
Proof.
  intros fields symbol [Hin | []] Hsym _.
  inversion Hin; subst fields. simpl in Hsym. inversion Hsym; subst symbol.
  exists "BTCUSDT". split; [reflexivity | now left].
Qed.

Lemma store_keys_subscribed_witness :
  reachable Sample.platform0 names_subscribed Sample.streaming /\
  keys_subscribed Sample.streaming.
Proof.
  assert (H : reachable Sample.platform0 names_subscribed Sample.streaming)
    by (apply sample_run; exact sample_frame_names_subscribed).
  split; [exact H |].
  exact (store_keys_subscribed Sample.platform0 Sample.streaming H).
Defined.

(** C5 fails as stated: a connected batch that is handed a ticker of
    DOGEUSDT, which no batch subscribed, stores it. *)
Lemma unsubscribed_symbol_is_stored :
  reachable Sample.platform0 any_frame Sample.stray /\
  In (KStr "DOGEUSDT") (PyDict.keys (current_data Sample.stray)) /\
  PySet.mem "DOGEUSDT" (subscribed_tickers Sample.stray) = false.
Proof.
  split; [apply sample_run; exact I |].
  split; [now left | reflexivity].
Qed.

(** ** Partitioning into batches *)

Lemma fold_left_append {A B : Type} (f : A -> B) (l : list A) (acc : list B) :
  fold_left (fun bs i => (bs ++ [f i])%list) l acc = (acc ++ map f l)%list.
Proof.
  revert acc. induction l as [| x rest IH]; intros acc; simpl.
  - now rewrite app_nil_r.
  - rewrite IH, <- app_assoc. reflexivity.
Qed.

Lemma ceil_div_step (x k : Z) : 0 < k -> ceil_div (x + k) k = ceil_div x k + 1.
Proof.
  intros Hk. unfold ceil_div.
  replace (x + k + k - 1) with (x + k - 1 + 1 * k) by lia.
  now rewrite Z.div_add by lia.
Qed.

Lemma ceil_div_nonpos (x k : Z) : 0 < k -> x <= 0 -> ceil_div x k <= 0.
Proof.
  intros Hk Hx. unfold ceil_div.
  assert ((x + k - 1) / k < 1); [| lia].
  apply Z.div_lt_upper_bound; lia.
Qed.

Lemma ceil_div_pos (x k : Z) : 0 < k -> 0 < x -> 1 <= ceil_div x k.
Proof.
  intros Hk Hx. unfold ceil_div.
  apply Z.div_le_lower_bound; lia.
Qed.

Lemma range_up_length (step stop : Z) (fuel : nat) (i : Z) :
  0 < step ->
  (Z.to_nat (stop - i) <= fuel)%nat ->
  Z.of_nat (List.length (range_up fuel i stop step)) = Z.max 0 (ceil_div (stop - i) step).
Proof.
  intros Hstep. revert i. induction fuel as [| fuel IH]; intros i Hfuel; simpl.
  - pose proof (ceil_div_nonpos (stop - i) step Hstep). lia.
  - destruct (i <? stop) eqn:E.
    + apply Z.ltb_lt in E. cbn [List.length]. rewrite Nat2Z.inj_succ, IH by lia.
      pose proof (ceil_div_step (stop - (i + step)) step Hstep) as Hc.
      replace (stop - (i + step) + step) with (stop - i) in Hc by lia.
      pose proof (ceil_div_pos (stop - i) step Hstep). lia.
    + apply Z.ltb_ge in E. pose proof (ceil_div_nonpos (stop - i) step Hstep).
      simpl. lia.
Qed.

Lemma range_up_nth (step stop : Z) (fuel : nat) (i : Z) (j : nat) :
  (j < List.length (range_up fuel i stop step))%nat ->
  nth j (range_up fuel i stop step) 0 = i + Z.of_nat j * step.
Proof.
  revert i j. induction fuel as [| fuel IH]; intros i j; simpl; [lia |].
  destruct (i <? stop); simpl; [| lia].
  destruct j as [| j]; [lia |]. intros H. rewrite IH by lia. lia.
Qed.

Lemma py_slice_nonneg {A : Type} (l : list A) (lo hi : Z) :
  0 <= lo <= hi ->
  py_slice l lo hi = firstn (Z.to_nat hi - Z.to_nat lo) (skipn (Z.to_nat lo) l).
Proof.
  intros H. unfold py_slice, clamp_index.
  destruct (lo <? 0) eqn:E1; [apply Z.ltb_lt in E1; lia |].
  destruct (hi <? 0) eqn:E2; [apply Z.ltb_lt in E2; lia |].
  set (n := List.length l).
  destruct (Z_lt_le_dec lo (Z.of_nat n)) as [Hlo | Hlo].
  - rewrite (Z.min_l lo) by lia.
    destruct (Z_lt_le_dec hi (Z.of_nat n)) as [Hhi | Hhi].
    + rewrite (Z.min_l hi) by lia. f_equal. lia.
    + rewrite (Z.min_r hi) by lia.
      rewrite !firstn_all2; try reflexivity; rewrite length_skipn; fold n; lia.
  - rewrite (Z.min_r lo), (Z.min_r hi) by lia.
    rewrite !skipn_all2 by (fold n; lia). now rewrite !firstn_nil.
Qed.

Lemma slices_concat {A : Type} (l : list A) (k : Z) (fuel : nat) (i : Z) :
  0 < k -> 0 <= i ->
  (Z.to_nat (Z.of_nat (List.length l) - i) <= fuel)%nat ->
  List.concat (map (fun i => py_slice l i (i + k)) (range_up fuel i (Z.of_nat (List.length l)) k))
  = skipn (Z.to_nat i) l.
Proof.
  intros Hk. revert i. induction fuel as [| fuel IH]; intros i Hi Hfuel; simpl.
  - rewrite skipn_all2 by lia. reflexivity.
  - destruct (i <? Z.of_nat (List.length l)) eqn:E.
    + apply Z.ltb_lt in E. simpl. rewrite IH by lia.
      rewrite py_slice_nonneg by lia.
      remember (Z.to_nat (i + k) - Z.to_nat i)%nat as b eqn:Hb.
      replace (Z.to_nat (i + k)) with (b + Z.to_nat i)%nat by lia.
      rewrite <- skipn_skipn. apply firstn_skipn.
    + apply Z.ltb_ge in E. rewrite skipn_all2 by lia. reflexivity.
Qed.

(** C3: for a batch size [k >= 1], [create_batches] returns, and what it
    returns has [ceil(n / k)] batches for [n] tickers; batch [i] is the
    slice of [k] tickers starting at [i * k]; every batch but the last has
    exactly [k] tickers and none is empty or longer than [k]; and the
    batches, concatenated, are the tickers themselves, in order. *)
Theorem create_batches_partitions (tickers : list string) (k : Z) :
  1 <= k ->
  exists batches,
    create_batches tickers k = Returned batches /\
    Z.of_nat (List.length batches) = ceil_div (Z.of_nat (List.length tickers)) k /\
    (forall i, (i < List.length batches)%nat ->
               nth i batches [] = firstn (Z.to_nat k) (skipn (i * Z.to_nat k) tickers)) /\
    (forall i, (S i < List.length batches)%nat ->
               List.length (nth i batches []) = Z.to_nat k) /\
    (forall batch, In batch batches -> (1 <= List.length batch <= Z.to_nat k)%nat) /\
    List.concat batches = tickers.
Proof.
  intros Hk.
  set (n := Z.of_nat (List.length tickers)).
  set (indices := range_up (Z.to_nat (n - 0)) 0 n k).
  exists (map (fun i => py_slice tickers i (i + k)) indices).
  assert (Hlen : Z.of_nat (List.length indices) = ceil_div n k).
  { unfold indices. rewrite range_up_length by lia.
    replace (n - 0) with n by lia.
    destruct (Z.eq_dec n 0) as [-> | Hn].
    - unfold ceil_div. rewrite Z.div_small by lia. reflexivity.
    - pose proof (ceil_div_pos n k). lia. }
  assert (Hnth : forall i, (i < List.length indices)%nat ->
                           nth i (map (fun i => py_slice tickers i (i + k)) indices) []
                           = firstn (Z.to_nat k) (skipn (i * Z.to_nat k) tickers)).
  { intros i Hi.
    rewrite (nth_indep _ [] (py_slice tickers 0 (0 + k))) by (now rewrite length_map).
    rewrite (map_nth (fun i => py_slice tickers i (i + k))).
    unfold indices. rewrite range_up_nth by exact Hi.
    rewrite py_slice_nonneg by lia. f_equal; [lia | f_equal; nia]. }
  assert (Hbelow : forall i : nat, Z.of_nat i < ceil_div n k -> Z.of_nat i * k < n).
  { intros i Hc. unfold ceil_div in Hc.
    pose proof (Z.mul_div_le (n + k - 1) k ltac:(lia)) as Hq.
    remember ((n + k - 1) / k) as q.
    assert ((Z.of_nat i + 1) * k <= k * q) by nia.
    lia. }
  assert (Hfull : forall i, (S i < List.length indices)%nat ->
                            (S i * Z.to_nat k <= List.length tickers)%nat).
  { intros i Hi.
    assert (Hc : Z.of_nat (S i) < ceil_div n k) by lia.
    apply Hbelow in Hc. unfold n in Hc. nia. }
  repeat split.
  - unfold create_batches, py_range.
    destruct (k =? 0) eqn:E0; [apply Z.eqb_eq in E0; lia |].
    destruct (0 <? k) eqn:E1; [| apply Z.ltb_ge in E1; lia].
    simpl. now rewrite fold_left_append.
  - now rewrite length_map.
  - intros i Hi. rewrite length_map in Hi. now apply Hnth.
  - intros i Hi. rewrite length_map in Hi. rewrite Hnth by lia.
    rewrite length_firstn, length_skipn. specialize (Hfull i Hi). nia.
  - apply (In_nth _ _ []) in H. destruct H as (i & Hi & <-).
    rewrite length_map in Hi. rewrite Hnth by exact Hi.
    rewrite length_firstn, length_skipn.
    assert (Hc : Z.of_nat i < ceil_div n k) by lia.
    apply Hbelow in Hc. unfold n in Hc. nia.
  - apply (In_nth _ _ []) in H. destruct H as (i & Hi & <-).
    rewrite length_map in Hi. rewrite Hnth by exact Hi.
    rewrite length_firstn. lia.
  - unfold indices, n. rewrite slices_concat by lia. reflexivity.
Qed.

Lemma create_batches_partitions_witness :
  create_batches Sample.universe 2 = Returned [["BTCUSDT"; "ETHUSDT"]; ["ADAUSDT"]] /\
  exists batches,
    create_batches Sample.universe 2 = Returned batches /\
    Z.of_nat (List.length batches) = 2 /\
    List.concat batches = Sample.universe.
Proof.
  split; [reflexivity |].
  destruct (create_batches_partitions Sample.universe 2) as (b & H1 & H2 & _ & _ & _ & H6);
    [lia |].
  exists b. repeat split; assumption.
Defined.

(** ** Discovery *)

(** C8, as the code has it: [fetch_spot_tickers] never raises; on a network
    fault, a status other than 200 or a malformed body it returns the empty
    list and leaves the collector as it was, and [start_collection] then
    returns with the collector untouched: no batch is created, no
    connection started, nothing subscribed. *)
Theorem failed_discovery_starts_nothing (reply : http_reply) (c : collector) :
  (exists tickers, result_of (fetch_spot_tickers reply) c = Returned tickers) /\
  (discovery_failed reply = true ->
   result_of (fetch_spot_tickers reply) c = Returned [] /\
   state_after (fetch_spot_tickers reply) c = c /\
   result_of (start_collection reply) c = Returned tt /\
   state_after (start_collection reply) c = c).
Proof.
  unfold result_of, state_after, start_collection, fetch_spot_tickers,
    try_except, bind, lift, ret, modify, discovery_failed.
  destruct reply as [| code body]; simpl.
  - split; [now exists [] | now repeat split].
  - destruct body as [e | symbols]; destruct (code =? 200); simpl;
      (split; [eexists; reflexivity | intros H; try discriminate; now repeat split]).
Qed.

Lemma failed_discovery_starts_nothing_witness :
  discovery_failed (Response 503 (Malformed JSONDecodeError)) = true /\
  state_after (start_collection (Response 503 (Malformed JSONDecodeError))) init = init.
Proof.
  split; [reflexivity |].
  exact (proj2 (proj2 (proj2 (proj2
           (failed_discovery_starts_nothing (Response 503 (Malformed JSONDecodeError)) init)
           eq_refl)))).
Defined.

(** C8 fails as stated: a failed discovery is not an error to the caller;
    the method returns the empty list, the very value it returns when the
    venue lists no instrument. *)
Lemma failed_discovery_returns_empty :
  result_of (fetch_spot_tickers NetworkFault) init = Returned [] /\
  result_of (fetch_spot_tickers (Response 503 (Malformed JSONDecodeError))) init = Returned [] /\
  result_of (fetch_spot_tickers (Response 200 (Malformed KeyError))) init = Returned [] /\
  result_of (fetch_spot_tickers (Response 200 (InstrumentList []))) init = Returned [].
Proof. repeat split; reflexivity. Qed.

(** ** Resolution *)

Lemma pyset_mem_false (x : string) (s : PySet.t) : PySet.mem x s = false <-> ~ In x s.
Proof.
  rewrite <- pyset_mem_in. destruct (PySet.mem x s); split; congruence.
Qed.

Lemma first_stripped_match_found (u : string) (before after : list string) (ticker : string) :
  PyStr.remove_all "USDT" ticker = u ->
  (forall x, In x before -> PyStr.remove_all "USDT" x <> u) ->
  first_stripped_match u (before ++ ticker :: after) = Some ticker.
Proof.
  intros Hm. induction before as [| x rest IH]; intros Hno; simpl.
  - rewrite Hm, String.eqb_refl. reflexivity.
  - destruct (String.eqb u (PyStr.remove_all "USDT" x)) eqn:E.
    + apply String.eqb_eq in E. exfalso. apply (Hno x); [now left | now symmetry].
    + apply IH. intros y Hy. apply Hno. now right.
Qed.

Lemma first_stripped_match_none (u : string) (tickers : list string) :
  (forall x, In x tickers -> PyStr.remove_all "USDT" x <> u) ->
  first_stripped_match u tickers = None.
Proof.
  induction tickers as [| x rest IH]; intros Hno; simpl; [reflexivity |].
  destruct (String.eqb u (PyStr.remove_all "USDT" x)) eqn:E.
  - apply String.eqb_eq in E. exfalso. apply (Hno x); [now left | now symmetry].
  - apply IH. intros y Hy. apply Hno. now right.
Qed.

(** C4, as the code has it: with [u] the input upper-cased and with every
    space removed, [find_ticker] returns (1) [u] if it is subscribed;
    else (2) [u + "USDT"] if [u] does not end in [USDT] and that string is
    subscribed; else (3) the first subscribed symbol, in the set's
    iteration order, that equals [u] once every occurrence of [USDT] in it
    is removed; else (4) [u] itself.  So "btc" and "BTCUSDT" both resolve
    to "BTCUSDT" when that is subscribed, and "ZZZ" to itself. *)
Theorem find_ticker_order (to_upper : string -> string) (c : collector) (user_input : string) :
  let u := normalize to_upper user_input in
  let subscribed := subscribed_tickers c in
  (In u subscribed -> find_ticker to_upper c user_input = u) /\
  (~ In u subscribed ->
   PyStr.endswith u "USDT" = false ->
   In (u ++ "USDT") subscribed ->
   find_ticker to_upper c user_input = u ++ "USDT") /\
  (~ In u subscribed ->
   PyStr.endswith u "USDT" = true \/ ~ In (u ++ "USDT") subscribed ->
   (forall before ticker after,
       subscribed = (before ++ ticker :: after)%list ->
       PyStr.remove_all "USDT" ticker = u ->
       (forall x, In x before -> PyStr.remove_all "USDT" x <> u) ->
       find_ticker to_upper c user_input = ticker) /\
   ((forall x, In x subscribed -> PyStr.remove_all "USDT" x <> u) ->
    find_ticker to_upper c user_input = u)) /\
  find_ticker PyStr.ascii_upper Sample.opened "btc" = "BTCUSDT" /\
  find_ticker PyStr.ascii_upper Sample.opened "BTCUSDT" = "BTCUSDT" /\
  find_ticker PyStr.ascii_upper Sample.opened "ZZZ" = "ZZZ".
Proof.
  intros u subscribed. unfold find_ticker. fold u. fold subscribed.
  split; [| split; [| split; [| repeat split; reflexivity]]].
  - intros H. apply pyset_mem_in in H. now rewrite H.
  - intros Hu He Hs. apply pyset_mem_false in Hu. apply pyset_mem_in in Hs.
    now rewrite Hu, He, Hs.
  - intros Hu Hno. apply pyset_mem_false in Hu. rewrite Hu.
    assert (Hskip : negb (PyStr.endswith u "USDT") && PySet.mem (u ++ "USDT") subscribed = false).
    { destruct Hno as [He | Hs]; [now rewrite He |].
      apply pyset_mem_false in Hs. rewrite Hs. apply andb_false_r. }
    rewrite Hskip. split.
    + intros before ticker after -> Hm Hb.
      now rewrite (first_stripped_match_found u before after ticker Hm Hb).
    + intros Hnone. now rewrite (first_stripped_match_none u subscribed Hnone).
Qed.

Lemma find_ticker_order_witness :
  find_ticker PyStr.ascii_upper (set_subscribed_tickers ["ETHUSDT"; "BTCUSDT"] init) "b tc"
  = "BTCUSDT".
Proof.
  refine (proj1 (proj2 (find_ticker_order PyStr.ascii_upper
                          (set_subscribed_tickers ["ETHUSDT"; "BTCUSDT"] init) "b tc")) _ _ _).
  - intros [H | [H | []]]; discriminate.
  - reflexivity.
  - right. now left.
Defined.

(** C4 fails as stated: with USDTEUR subscribed, "eur" resolves to it,
    although USDTEUR has no USDT suffix to strip and neither "EUR" nor
    "EURUSDT" is subscribed: step 3 removes USDT wherever it stands. *)
Lemma usdt_is_removed_anywhere :
  find_ticker PyStr.ascii_upper (set_subscribed_tickers ["USDTEUR"] init) "eur" = "USDTEUR" /\
  spec_suffix_stripped "USDTEUR" = "USDTEUR" /\
  PyStr.remove_all "USDT" "USDTEUR" = "EUR".
Proof. repeat split; reflexivity. Qed.

(** ** The point lookup *)

Section Lookup.

Variable P : platform.

(** What a query returns, read off the state it was called in: logging
    the request does not change what the lookup sees. *)
Lemma get_ticker_data_result (symbol : string) (user_id username : option string)
      (source : string) (now : spec_float) (c : collector) :
  result_of (get_ticker_data P symbol user_id username source now) c
  = let correct_symbol := find_ticker (upper P) c symbol in
    let data := match PyDict.get (KStr correct_symbol) (current_data c) with
                | Some d => d
                | None => JNull
                end in
    if truthy data
    then found_result P data
    else Returned (not_found_result c symbol correct_symbol).
Proof.
  assert (Hif : forall (b : bool) (f g : M json) (c0 : collector),
             fst ((if b then f else g) c0) = if b then fst (f c0) else fst (g c0))
    by (intros []; reflexivity).
  unfold result_of, get_ticker_data, bind, read, lift, ret, log_user_request, modify.
  destruct (arg_truthy user_id && arg_truthy username);
    [destruct user_id as [uid |]; [destruct username as [name |] |] |]; simpl;
    rewrite Hif; reflexivity.
Qed.

(** The found result, assembled from its two derived fields. *)
Lemma found_result_fields (fields : list (string * json)) :
  found_result P (JObj fields)
  = obind (timestamp_field P fields) (fun timestamp =>
    obind (percent_field P fields) (fun percent =>
    let field k := match assoc k fields with Some v => v | None => na end in
    Returned (JObj ([("symbol", field "symbol");
                     ("last_price", field "lastPrice");
                     ("price_change_24h", field "price24hPcnt");
                     ("high_price_24h", field "highPrice24h");
                     ("low_price_24h", field "lowPrice24h");
                     ("volume_24h", field "volume24h");
                     ("timestamp", timestamp)]
                    ++ match percent with
                       | Some pct => [("price_change_percent_24h", pct)]
                       | None => []
                       end)%list))).
Proof.
  unfold found_result, timestamp_field, percent_field, get_method. simpl.
  destruct (assoc "ts" fields) as [ts |]; simpl.
  - destruct (truthy ts); simpl.
    + destruct (dividend ts) as [n | e]; simpl; [| reflexivity].
      destruct (strftime_localtime_ms P n) as [s | e]; simpl; [| reflexivity].
      destruct (assoc "price24hPcnt" fields) as [v |]; simpl; [| reflexivity].
      destruct (differs_from_na v); simpl; [| reflexivity].
      destruct (percent_string P v); reflexivity.
    + destruct (assoc "price24hPcnt" fields) as [v |]; simpl; [| reflexivity].
      destruct (differs_from_na v); simpl; [| reflexivity].
      destruct (percent_string P v); reflexivity.
  - destruct (assoc "price24hPcnt" fields) as [v |]; simpl; [| reflexivity].
    destruct (differs_from_na v); simpl; [| reflexivity].
    destruct (percent_string P v); reflexivity.
Qed.

Lemma truthy_object (fields : list (string * json)) :
  fields <> [] -> truthy (JObj fields) = true.
Proof. destruct fields; [congruence | reflexivity]. Qed.

End Lookup.

(** C2, as the code has it: when the resolved symbol has no entry in the
    store, the lookup returns, without raising, the failure result with
    the error text, the resolved symbol, the number of subscribed symbols
    at call time and the batch progress; when the entry is a ticker object
    whose [ts] and [price24hPcnt] can be rendered, it returns a result
    with no [error] key.  Nothing guards the renderings: an entry they
    reject makes the lookup raise. *)
Theorem get_ticker_data_outcomes (P : platform) (symbol : string)
        (user_id username : option string) (source : string) (now : spec_float)
        (c : collector) :
  let correct_symbol := find_ticker (upper P) c symbol in
  let answer := result_of (get_ticker_data P symbol user_id username source now) c in
  (PyDict.get (KStr correct_symbol) (current_data c) = None ->
   answer = Returned (JObj
     [("error", JStr ("Данные для " ++ symbol ++ " не найдены"));
      ("correct_symbol", JStr correct_symbol);
      ("tip", JStr ("Подписано тикетов: "
                    ++ PyStr.of_Z (Z.of_nat (List.length (subscribed_tickers c)))));
      ("progress", JStr ("Батчи: " ++ PyStr.of_Z (completed_batches c)
                         ++ "/" ++ PyStr.of_Z (total_batches c)))])) /\
  (forall fields,
      PyDict.get (KStr correct_symbol) (current_data c) = Some (JObj fields) ->
      fields <> [] ->
      ts_renders P fields ->
      percent_renders P fields ->
      exists result, answer = Returned (JObj result) /\ assoc "error" result = None).
Proof.
  intros correct_symbol answer. subst answer. rewrite get_ticker_data_result.
  cbv zeta. fold correct_symbol. split.
  - intros H. rewrite H. reflexivity.
  - intros fields H Hne (timestamp & Hts) (percent & Hpct). rewrite H.
    rewrite truthy_object by exact Hne.
    rewrite found_result_fields, Hts, Hpct. simpl.
    eexists. split; [reflexivity |]. destruct percent; reflexivity.
Qed.

Lemma get_ticker_data_outcomes_witness :
  result_of (get_ticker_data Sample.platform0 "doge" (Some "42") (Some "Ann") "TG" Sample.t0)
            Sample.streaming
  = Returned (JObj [("error", JStr "Данные для doge не найдены");
                    ("correct_symbol", JStr "DOGE");
                    ("tip", JStr "Подписано тикетов: 3");
                    ("progress", JStr "Батчи: 1/1")]) /\
  exists result,
    result_of (get_ticker_data Sample.platform0 "btc" None None "TG" Sample.t0)
              Sample.streaming = Returned (JObj result) /\
    assoc "error" result = None.
Proof.
  split.
  - exact (proj1 (get_ticker_data_outcomes Sample.platform0 "doge" (Some "42") (Some "Ann")
                    "TG" Sample.t0 Sample.streaming) eq_refl).
  - refine (proj2 (get_ticker_data_outcomes Sample.platform0 "btc" None None
                     "TG" Sample.t0 Sample.streaming) Sample.btc_fields eq_refl _ _ _).
    + discriminate.
    + exists na. reflexivity.
    + exists (Some (JStr "5.00%")). reflexivity.
Defined.

(** C2 fails as stated: a stored ticker whose [ts] is a string of digits
    makes the lookup raise [TypeError] at [data.get('ts', 0) / 1000],
    before any rendering of the platform is asked for. *)
Lemma lookup_raises_on_text_ts :
  PyDict.get (KStr "ETHUSDT")
             (current_data (Sample.after_ticker "tickers.ETHUSDT" Sample.text_ts_fields))
  = Some (JObj Sample.text_ts_fields) /\
  result_of (get_ticker_data Sample.platform0 "eth" None None "TG" Sample.t0)
            (Sample.after_ticker "tickers.ETHUSDT" Sample.text_ts_fields)
  = Raised TypeError.
Proof. split; reflexivity. Qed.

(** C6, as the code has it: for a stored ticker object whose [ts] and
    [price24hPcnt] can be rendered, the lookup returns a result in which
    [timestamp] is the formatted local time of [ts], or 'N/A' when [ts] is
    absent or falsy, and in which [price_change_percent_24h] is the
    percent string of [price24hPcnt]; when [price24hPcnt] is absent,
    [price_change_24h] is 'N/A' and the result has no
    [price_change_percent_24h] key at all. *)
Theorem found_result_derived_fields (P : platform) (symbol : string)
        (user_id username : option string) (source : string) (now : spec_float)
        (c : collector) (fields : list (string * json)) :
  PyDict.get (KStr (find_ticker (upper P) c symbol)) (current_data c) = Some (JObj fields) ->
  fields <> [] ->
  ts_renders P fields ->
  percent_renders P fields ->
  exists result,
    result_of (get_ticker_data P symbol user_id username source now) c
    = Returned (JObj result) /\
    match assoc "ts" fields with
    | Some ts =>
        if truthy ts
        then exists n s, dividend ts = Returned n /\
                         strftime_localtime_ms P n = Returned s /\
                         assoc "timestamp" result = Some (JStr s)
        else assoc "timestamp" result = Some na
    | None => assoc "timestamp" result = Some na
    end /\
    match assoc "price24hPcnt" fields with
    | Some v =>
        assoc "price_change_24h" result = Some v /\
        if differs_from_na v
        then exists pct, percent_string P v = Returned pct /\
                         assoc "price_change_percent_24h" result = Some (JStr pct)
        else assoc "price_change_percent_24h" result = None
    | None =>
        assoc "price_change_24h" result = Some na /\
        assoc "price_change_percent_24h" result = None
    end.
Proof.
  intros Hget Hne (timestamp & Hts) (percent & Hpct).
  rewrite get_ticker_data_result. cbv zeta. rewrite Hget, (truthy_object fields Hne).
  rewrite found_result_fields, Hts, Hpct. simpl.
  eexists. split; [reflexivity |].
  unfold timestamp_field in Hts. unfold percent_field in Hpct. split.
  - destruct (assoc "ts" fields) as [ts |].
    + destruct (truthy ts).
      * destruct (dividend ts) as [n | e]; simpl in Hts; [| discriminate].
        destruct (strftime_localtime_ms P n) as [s | e] eqn:Hs; simpl in Hts; [| discriminate].
        inversion Hts; subst timestamp. exists n, s. now repeat split.
      * inversion Hts; subst timestamp. reflexivity.
    + inversion Hts; subst timestamp. reflexivity.
  - destruct (assoc "price24hPcnt" fields) as [v |].
    + split; [reflexivity |].
      destruct (differs_from_na v).
      * destruct (percent_string P v) as [pct | e]; simpl in Hpct; [| discriminate].
        inversion Hpct; subst percent. exists pct. now split.
      * inversion Hpct; subst percent. reflexivity.
    + inversion Hpct; subst percent. now split.
Qed.

Lemma found_result_derived_fields_witness :
  exists result,
    result_of (get_ticker_data Sample.platform0 "btc" None None "TG" Sample.t0)
              Sample.streaming = Returned (JObj result) /\
    assoc "timestamp" result = Some na /\
    assoc "price_change_percent_24h" result = Some (JStr "5.00%").
Proof.
  destruct (found_result_derived_fields Sample.platform0 "btc" None None "TG" Sample.t0
              Sample.streaming Sample.btc_fields eq_refl)
    as (result & Hres & Hts & _ & pct & Hpct & Hfield).
  - discriminate.
  - exists na. reflexivity.
  - exists (Some (JStr "5.00%")). reflexivity.
  - exists result. simpl in Hpct. inversion Hpct; subst pct. now repeat split.
Defined.

(** C6 fails as stated: for a stored ticker without [price24hPcnt] the
    result carries no [price_change_percent_24h] entry, marked or not; and
    for one whose [price24hPcnt] is [null] there is no result, the lookup
    raises [TypeError] at [float(None)]. *)
Lemma percent_is_omitted_or_raises :
  result_of (get_ticker_data Sample.platform0 "ada" None None "TG" Sample.t0)
            (Sample.after_ticker "tickers.ADAUSDT" Sample.ada_fields)
  = Returned (JObj [("symbol", JStr "ADAUSDT"); ("last_price", JStr "0.5");
                    ("price_change_24h", JStr "N/A"); ("high_price_24h", JStr "N/A");
                    ("low_price_24h", JStr "N/A"); ("volume_24h", JStr "N/A");
                    ("timestamp", JStr "N/A")]) /\
  result_of (get_ticker_data Sample.platform0 "ada" None None "TG" Sample.t0)
            (Sample.after_ticker "tickers.ADAUSDT" Sample.null_percent_fields)
  = Raised TypeError.
Proof. split; reflexivity. Qed.

(** * Further properties *)

(** ** Sets and dictionaries *)

Lemma pyset_add_in (x y : string) (s : PySet.t) :
  In y (PySet.add x s) <-> In y s \/ y = x.
Proof.
  unfold PySet.add. destruct (PySet.mem x s) eqn:E.
  - apply pyset_mem_in in E. split; [now left | intros [H | ->]; assumption].
  - rewrite in_app_iff. simpl. split.
    + intros [H | [H | []]]; [now left | right; now symmetry].
    + intros [H | ->]; [now left | right; now left].
Qed.

Lemma pyset_add_nodup (x : string) (s : PySet.t) : NoDup s -> NoDup (PySet.add x s).
Proof.
  intros H. unfold PySet.add. destruct (PySet.mem x s) eqn:E; [exact H |].
  apply pyset_mem_false in E.
  apply NoDup_app; [exact H | repeat constructor; intros [] | ].
  intros y Hy [<- | []]. contradiction.
Qed.

Lemma pyset_update_in (xs : list string) (y : string) (s : PySet.t) :
  In y (PySet.update s xs) <-> In y s \/ In y xs.
Proof.
  unfold PySet.update. revert s.
  induction xs as [| x rest IH]; intros s; simpl; [tauto |].
  rewrite IH, pyset_add_in. intuition congruence.
Qed.

Lemma pyset_update_nodup (xs : list string) (s : PySet.t) :
  NoDup s -> NoDup (PySet.update s xs).
Proof.
  unfold PySet.update. revert s.
  induction xs as [| x rest IH]; intros s H; simpl; [exact H |].
  apply IH. now apply pyset_add_nodup.
Qed.

Lemma dict_keys_set {V : Type} (k : pykey) (v : V) (d : PyDict.t V) :
  PyDict.keys (PyDict.set k v d)
  = if in_dec pykey_eq_dec k (PyDict.keys d)
    then PyDict.keys d
    else (PyDict.keys d ++ [k])%list.
Proof.
  unfold PyDict.keys. induction d as [| [k' v'] rest IH]; simpl; [reflexivity |].
  destruct (pykey_eqb k k') eqn:E; simpl.
  - apply pykey_eqb_eq in E. subst k'.
    destruct (pykey_eq_dec k k); [| congruence].
    reflexivity.
  - assert (Hne : k' <> k) by (intros Heq; subst k'; rewrite pykey_eqb_refl in E; discriminate).
    destruct (pykey_eq_dec k' k) as [Heq | Hneq]; [contradiction |].
    rewrite IH. destruct (in_dec pykey_eq_dec k (map fst rest)); reflexivity.
Qed.

Lemma dict_get_none {V : Type} (k : pykey) (d : PyDict.t V) :
  PyDict.get k d = None <-> ~ In k (PyDict.keys d).
Proof.
  unfold PyDict.keys. induction d as [| [k' v'] rest IH]; simpl; [tauto |].
  destruct (pykey_eqb k k') eqn:E.
  - apply pykey_eqb_eq in E. subst k'. split; [discriminate | intros H; exfalso; apply H; now left].
  - assert (Hne : k' <> k) by (intros Heq; subst k'; rewrite pykey_eqb_refl in E; discriminate).
    rewrite IH. tauto.
Qed.

(** ** Connecting a batch *)

(** X1: when a batch connects, [on_open] adds exactly the symbols of that
    batch to the subscribed set: a symbol is subscribed afterwards if and
    only if it was before or belongs to the batch, no symbol is listed
    twice, and the store, the connections and the request log are as they
    were. *)
Theorem on_open_subscribes_batch (ws : ws_app) (c : collector) :
  let c' := state_after (on_open ws) c in
  (forall s, In s (subscribed_tickers c') <->
             In s (subscribed_tickers c) \/ In s (ws_batch ws)) /\
  (NoDup (subscribed_tickers c) -> NoDup (subscribed_tickers c')) /\
  current_data c' = current_data c /\
  ws_connections c' = ws_connections c /\
  total_batches c' = total_batches c /\
  user_requests c' = user_requests c.
Proof.
  simpl. split; [intros s; apply pyset_update_in |].
  split; [apply pyset_update_nodup | now repeat split].
Qed.

Lemma on_open_subscribes_batch_witness :
  NoDup (subscribed_tickers (state_after (on_open Sample.ws1) Sample.streaming)).
Proof.
  refine (proj1 (proj2 (on_open_subscribes_batch Sample.ws1 Sample.streaming)) _).
  repeat constructor; simpl; intuition discriminate.
Defined.

(** ** Closing a connection *)

Lemma remove_first_absent (ws : ws_app) (l : list ws_app) :
  ~ In ws l -> remove_first ws l = l.
Proof.
  induction l as [| x rest IH]; simpl; [reflexivity |].
  intros H. destruct (ws_app_eq_dec ws x) as [-> | Hne].
  - exfalso. apply H. now left.
  - f_equal. apply IH. intros Hin. apply H. now right.
Qed.

Lemma remove_first_count (ws w : ws_app) (l : list ws_app) :
  count_occ ws_app_eq_dec (remove_first ws l) w
  = if ws_app_eq_dec ws w
    then Nat.pred (count_occ ws_app_eq_dec l w)
    else count_occ ws_app_eq_dec l w.
Proof.
  induction l as [| x rest IH]; simpl.
  - now destruct (ws_app_eq_dec ws w).
  - destruct (ws_app_eq_dec ws x) as [-> | Hne].
    + destruct (ws_app_eq_dec x w); reflexivity.
    + simpl. rewrite IH.
      destruct (ws_app_eq_dec x w) as [-> | Hxw]; [| reflexivity].
      destruct (ws_app_eq_dec ws w); [contradiction | reflexivity].
Qed.

Lemma remove_first_length (ws : ws_app) (l : list ws_app) :
  In ws l -> S (List.length (remove_first ws l)) = List.length l.
Proof.
  induction l as [| x rest IH]; simpl; [intros [] |].
  intros H. destruct (ws_app_eq_dec ws x) as [-> | Hne]; [reflexivity |].
  simpl. f_equal. apply IH. destruct H as [-> | H]; [contradiction | exact H].
Qed.

(** X2: [on_close] takes the closed connection out of the active list,
    once: the list gets one shorter when the connection was in it and the
    collector is untouched when it was not; every other connection stays
    as often as it was listed; a connection listed once is gone
    afterwards; and the store, the subscribed symbols and the counter of
    completed batches are as before the close. *)
Theorem on_close_removes_one (ws : ws_app) (c : collector) :
  let c' := state_after (on_close ws) c in
  (In ws (ws_connections c) ->
   S (List.length (ws_connections c')) = List.length (ws_connections c)) /\
  (~ In ws (ws_connections c) -> c' = c) /\
  (forall w, w <> ws ->
             count_occ ws_app_eq_dec (ws_connections c') w
             = count_occ ws_app_eq_dec (ws_connections c) w) /\
  (NoDup (ws_connections c) -> ~ In ws (ws_connections c')) /\
  current_data c' = current_data c /\
  subscribed_tickers c' = subscribed_tickers c /\
  completed_batches c' = completed_batches c.
Proof.
  simpl. split; [apply remove_first_length |].
  split.
  { intros H. unfold state_after, on_close, modify. simpl.
    rewrite remove_first_absent by exact H. now destruct c. }
  split.
  { intros w Hw. rewrite remove_first_count.
    destruct (ws_app_eq_dec ws w); [congruence | reflexivity]. }
  split; [| now repeat split].
  intros Hnd Hin.
  apply (count_occ_In ws_app_eq_dec) in Hin. rewrite remove_first_count in Hin.
  destruct (ws_app_eq_dec ws ws); [| congruence].
  pose proof (proj1 (NoDup_count_occ ws_app_eq_dec _) Hnd ws). lia.
Qed.

Lemma on_close_removes_one_witness :
  In Sample.ws1 (ws_connections Sample.streaming) /\
  List.length (ws_connections (state_after (on_close Sample.ws1) Sample.streaming)) = 0%nat.
Proof.
  assert (H : In Sample.ws1 (ws_connections Sample.streaming)) by (now left).
  split; [exact H |].
  pose proof (proj1 (on_close_removes_one Sample.ws1 Sample.streaming) H) as Hlen.
  simpl in Hlen. simpl. congruence.
Defined.

(** ** The request log *)

(** X3: a lookup made with a non-empty requester id and name records that
    request as the requester's last one (name, raw text, time, origin),
    replacing any earlier record of the same id and leaving every other
    requester's record alone; a lookup without an id or without a name
    changes nothing at all; and in either case the store, the subscribed
    symbols, the connections and the counters are untouched. *)
Theorem lookup_logs_last_request (P : platform) (symbol : string)
        (user_id username : option string) (source : string) (now : spec_float)
        (c : collector) :
  let c' := state_after (get_ticker_data P symbol user_id username source now) c in
  (forall uid name,
      user_id = Some uid -> username = Some name -> uid <> "" -> name <> "" ->
      PyDict.get (KStr uid) (user_requests c')
      = Some (mk_request name symbol now source) /\
      forall other, other <> KStr uid ->
                    PyDict.get other (user_requests c') = PyDict.get other (user_requests c)) /\
  (arg_truthy user_id = false \/ arg_truthy username = false -> c' = c) /\
  current_data c' = current_data c /\
  subscribed_tickers c' = subscribed_tickers c /\
  ws_connections c' = ws_connections c /\
  completed_batches c' = completed_batches c /\
  total_batches c' = total_batches c.
Proof.
  intros c'.
  destruct (get_ticker_data_state P symbol user_id username source now c) as (d & Hd).
  fold c' in Hd.
  assert (Hstate : c' = if arg_truthy user_id && arg_truthy username
                        then match user_id, username with
                             | Some uid, Some name =>
                                 state_after (log_user_request uid name symbol source now) c
                             | _, _ => c
                             end
                        else c).
  { unfold c', state_after, get_ticker_data, bind, read, lift, ret.
    destruct (arg_truthy user_id && arg_truthy username);
      [destruct user_id as [uid |]; [destruct username as [name |] |] |]; simpl;
      match goal with
      | |- context [if ?b then _ else _] => destruct b
      end; reflexivity. }
  split.
  { intros uid name -> -> Huid Hname. rewrite Hstate. simpl.
    destruct (String.eqb uid "") eqn:E1; [apply String.eqb_eq in E1; contradiction |].
    destruct (String.eqb name "") eqn:E2; [apply String.eqb_eq in E2; contradiction |].
    simpl. split; [apply dict_get_set_same |].
    intros other Hother. now apply dict_get_set_other. }
  split.
  { intros H. rewrite Hstate.
    destruct H as [H | H]; rewrite H; [reflexivity | now rewrite andb_false_r]. }
  rewrite Hd. now repeat split.
Qed.

Lemma lookup_logs_last_request_witness :
  PyDict.get (KStr "42")
             (user_requests
                (state_after (get_ticker_data Sample.platform0 "btc" (Some "42") (Some "Ann")
                                              "TG" Sample.t0) Sample.streaming))
  = Some (mk_request "Ann" "btc" Sample.t0 "TG").
Proof.
  refine (proj1 (proj1 (lookup_logs_last_request Sample.platform0 "btc" (Some "42")
                          (Some "Ann") "TG" Sample.t0 Sample.streaming)
                       "42" "Ann" eq_refl eq_refl _ _)); discriminate.
Defined.

(** ** What resolution can return *)

Lemma first_stripped_match_in (u : string) (tickers : list string) (ticker : string) :
  first_stripped_match u tickers = Some ticker ->
  In ticker tickers /\ PyStr.remove_all "USDT" ticker = u.
Proof.
  induction tickers as [| x rest IH]; simpl; [discriminate |].
  destruct (String.eqb u (PyStr.remove_all "USDT" x)) eqn:E.
  - intros H. inversion H; subst x. apply String.eqb_eq in E. split; [now left | now symmetry].
  - intros H. destruct (IH H) as [Hin Hm]. split; [now right | exact Hm].
Qed.

(** X4: [find_ticker] never makes up a symbol: what it returns is one of
    the subscribed symbols or the normalised input itself; and while
    nothing is subscribed yet, every input resolves to its normalised
    form. *)
Theorem find_ticker_subscribed_or_input (to_upper : string -> string) (c : collector)
        (user_input : string) :
  (In (find_ticker to_upper c user_input) (subscribed_tickers c) \/
   find_ticker to_upper c user_input = normalize to_upper user_input) /\
  (subscribed_tickers c = [] ->
   find_ticker to_upper c user_input = normalize to_upper user_input).
Proof.
  unfold find_ticker. split.
  - destruct (PySet.mem (normalize to_upper user_input) (subscribed_tickers c)) eqn:E1.
    + left. now apply pyset_mem_in.
    + destruct (negb (PyStr.endswith (normalize to_upper user_input) "USDT")
                && PySet.mem (normalize to_upper user_input ++ "USDT") (subscribed_tickers c))
        eqn:E2.
      * left. apply andb_prop in E2. destruct E2 as [_ E2]. now apply pyset_mem_in.
      * destruct (first_stripped_match (normalize to_upper user_input) (subscribed_tickers c))
          as [ticker |] eqn:E3; [| now right].
        left. now apply first_stripped_match_in in E3.
  - intros ->. simpl. now rewrite andb_false_r.
Qed.

Lemma find_ticker_subscribed_or_input_witness :
  find_ticker PyStr.ascii_upper init "eth" = "ETH".
Proof.
  exact (proj2 (find_ticker_subscribed_or_input PyStr.ascii_upper init "eth") eq_refl).
Defined.

(** ** Batch sizes outside the intended range *)

Lemma range_down_from_zero (fuel : nat) (stop step : Z) :
  0 <= stop -> range_down fuel 0 stop step = [].
Proof.
  intros H. destruct fuel as [| fuel]; simpl; [reflexivity |].
  destruct (stop <? 0) eqn:E; [apply Z.ltb_lt in E; lia | reflexivity].
Qed.

(** X5: [create_batches] outside its intended use: a batch size of 0
    raises [ValueError]; a negative batch size raises nothing and returns
    no batch at all, whatever the tickers; no tickers give no batch; and a
    batch size that reaches the number of tickers gives the one batch of
    all of them. *)
Theorem create_batches_edge_cases (tickers : list string) (batch_size : Z) :
  create_batches tickers 0 = Raised ValueError /\
  (batch_size < 0 -> create_batches tickers batch_size = Returned []) /\
  (batch_size <> 0 -> create_batches [] batch_size = Returned []) /\
  (tickers <> [] -> Z.of_nat (List.length tickers) <= batch_size ->
   create_batches tickers batch_size = Returned [tickers]).
Proof.
  unfold create_batches, py_range. split; [reflexivity |]. split; [| split].
  - intros H. destruct (batch_size =? 0) eqn:E0; [apply Z.eqb_eq in E0; lia |].
    destruct (0 <? batch_size) eqn:E1; [apply Z.ltb_lt in E1; lia |].
    simpl. rewrite range_down_from_zero by lia. reflexivity.
  - intros H. destruct (batch_size =? 0) eqn:E0; [apply Z.eqb_eq in E0; lia |].
    destruct (0 <? batch_size); reflexivity.
  - intros Hne Hle.
    assert (Hn : 0 < Z.of_nat (List.length tickers)) by (destruct tickers; [congruence | simpl; lia]).
    destruct (batch_size =? 0) eqn:E0; [apply Z.eqb_eq in E0; lia |].
    destruct (0 <? batch_size) eqn:E1; [| apply Z.ltb_ge in E1; lia].
    simpl. rewrite fold_left_append. simpl. f_equal.
    replace (Z.of_nat (List.length tickers) - 0) with (Z.of_nat (List.length tickers)) by lia.
    rewrite Nat2Z.id.
    destruct (List.length tickers) as [| n] eqn:El; [lia |].
    cbn [range_up]. destruct (0 <? Z.of_nat (S n)) eqn:E2; [| apply Z.ltb_ge in E2; lia].
    destruct n as [| n]; cbn [range_up].
    + simpl. rewrite py_slice_nonneg by lia. simpl.
      rewrite firstn_all2 by lia. reflexivity.
    + destruct (0 + batch_size <? Z.of_nat (S (S n))) eqn:E3; [apply Z.ltb_lt in E3; lia |].
      simpl. rewrite py_slice_nonneg by lia. simpl.
      rewrite firstn_all2 by lia. reflexivity.
Qed.

Lemma create_batches_edge_cases_witness :
  create_batches Sample.universe (-5) = Returned [] /\
  create_batches Sample.universe 7 = Returned [Sample.universe].
Proof.
  split.
  - apply (proj1 (proj2 (create_batches_edge_cases Sample.universe (-5)))). lia.
  - apply (proj2 (proj2 (proj2 (create_batches_edge_cases Sample.universe 7)))).
    + discriminate.
    + simpl. lia.
Defined.

(** ** A successful discovery *)

Lemma pyset_of_list_in (xs : list string) (y : string) :
  In y (PySet.of_list xs) <-> In y xs.
Proof.
  unfold PySet.of_list. rewrite pyset_update_in. simpl. tauto.
Qed.

(** X6: on a 200 response that lists instruments, [fetch_spot_tickers]
    returns their symbols as listed, in order and with repetitions, and
    replaces [available_tickers] by the set of those symbols: each listed
    symbol once, nothing else, whatever the set held before; the rest of
    the collector is untouched. *)
Theorem fetch_spot_tickers_success (symbols : list string) (c : collector) :
  let reply := Response 200 (InstrumentList symbols) in
  let c' := state_after (fetch_spot_tickers reply) c in
  result_of (fetch_spot_tickers reply) c = Returned symbols /\
  (forall s, In s (available_tickers c') <-> In s symbols) /\
  NoDup (available_tickers c') /\
  c' = set_available_tickers (available_tickers c') c.
Proof.
  simpl. split; [reflexivity |].
  split; [intros s; apply pyset_of_list_in |].
  split; [apply pyset_update_nodup; constructor | reflexivity].
Qed.

(** ** Starting the connections *)

Lemma create_batches_shape (tickers : list string) (k : Z) :
  0 < k ->
  exists batches,
    create_batches tickers k = Returned batches /\
    Z.of_nat (List.length batches) = ceil_div (Z.of_nat (List.length tickers)) k /\
    List.concat batches = tickers /\
    (forall batch, In batch batches -> 1 <= Z.of_nat (List.length batch) <= k).
Proof.
  intros Hk.
  set (n := Z.of_nat (List.length tickers)).
  set (indices := range_up (Z.to_nat (n - 0)) 0 n k).
  exists (map (fun i => py_slice tickers i (i + k)) indices).
  assert (Hlen : Z.of_nat (List.length indices) = ceil_div n k).
  { unfold indices. rewrite range_up_length by lia.
    replace (n - 0) with n by lia.
    destruct (Z.eq_dec n 0) as [Hz | Hn].
    - rewrite Hz. unfold ceil_div. rewrite Z.div_small by lia. reflexivity.
    - pose proof (ceil_div_pos n k). lia. }
  split; [| split; [| split]].
  - unfold create_batches, py_range.
    destruct (k =? 0) eqn:E0; [apply Z.eqb_eq in E0; lia |].
    destruct (0 <? k) eqn:E1; [| apply Z.ltb_ge in E1; lia].
    simpl. now rewrite fold_left_append.
  - now rewrite length_map.
  - unfold indices, n. rewrite slices_concat by lia. reflexivity.
  - intros batch Hin. apply in_map_iff in Hin. destruct Hin as (i & <- & Hi).
    apply (In_nth _ _ 0) in Hi. destruct Hi as (j & Hj & Hnth).
    unfold indices in Hnth, Hj. rewrite range_up_nth in Hnth by exact Hj.
    assert (Hc : Z.of_nat j < ceil_div n k) by (unfold indices in Hlen; lia).
    assert (Hbelow : Z.of_nat j * k < n).
    { unfold ceil_div in Hc.
      pose proof (Z.mul_div_le (n + k - 1) k ltac:(lia)) as Hq.
      remember ((n + k - 1) / k) as q.
      assert ((Z.of_nat j + 1) * k <= k * q) by nia. lia. }
    subst i. rewrite py_slice_nonneg by lia.
    rewrite length_firstn, length_skipn. unfold n in Hbelow. lia.
Qed.

Lemma start_each_connections (batches : list (list string)) (i : Z) (c : collector) :
  start_each i batches c
  = (Returned tt,
     set_ws_connections (ws_connections c ++ connections_for (i + 1) batches)%list c).
Proof.
  revert i c. induction batches as [| batch rest IH]; intros i c; simpl.
  - rewrite app_nil_r. now destruct c.
  - unfold bind, start_websocket_for_batch, modify. rewrite IH. simpl.
    now rewrite <- app_assoc.
Qed.

Lemma connections_for_batches (first : Z) (batches : list (list string)) :
  map ws_batch (connections_for first batches) = batches.
Proof.
  revert first. induction batches as [| batch rest IH]; intros first; simpl;
    [reflexivity | now rewrite IH].
Qed.

Lemma connections_for_ids (first : Z) (batches : list (list string)) :
  map ws_batch_id (connections_for first batches)
  = map (fun i => first + Z.of_nat i) (seq 0 (List.length batches)).
Proof.
  revert first. induction batches as [| batch rest IH]; intros first; simpl; [reflexivity |].
  rewrite IH, <- seq_shift, map_map. f_equal; [lia |].
  apply map_ext. intros i. lia.
Qed.

Lemma start_all_websockets_state (tickers : list string) (c : collector) :
  exists batches,
    create_batches tickers 10 = Returned batches /\
    start_all_websockets tickers c
    = (Returned tt,
       set_ws_connections (ws_connections c ++ connections_for 1 batches)%list
                          (set_total_batches (Z.of_nat (List.length batches)) c)) /\
    Z.of_nat (List.length batches) = ceil_div (Z.of_nat (List.length tickers)) 10 /\
    List.concat batches = tickers /\
    (forall batch, In batch batches -> 1 <= Z.of_nat (List.length batch) <= 10).
Proof.
  destruct (create_batches_shape tickers 10) as (batches & Hb & Hlen & Hcat & Hsize); [lia |].
  exists batches. repeat split; try assumption; try (now apply Hsize).
  unfold start_all_websockets, bind, lift, modify. rewrite Hb.
  rewrite start_each_connections. reflexivity.
Qed.

(** X7: [start_all_websockets] never raises; it sets [total_batches] to
    [ceil(n / 10)] for [n] tickers and appends one connection per batch to
    the active list, in order and numbered 1, 2, ... ; the batches of the
    new connections, concatenated, are the tickers, and each holds at
    least one and at most ten of them. *)
Theorem start_all_websockets_layout (tickers : list string) (c : collector) :
  let c' := state_after (start_all_websockets tickers) c in
  exists added,
    result_of (start_all_websockets tickers) c = Returned tt /\
    ws_connections c' = (ws_connections c ++ added)%list /\
    total_batches c' = Z.of_nat (List.length added) /\
    total_batches c' = ceil_div (Z.of_nat (List.length tickers)) 10 /\
    map ws_batch_id added = map (fun i => 1 + Z.of_nat i) (seq 0 (List.length added)) /\
    List.concat (map ws_batch added) = tickers /\
    (forall ws, In ws added -> 1 <= Z.of_nat (List.length (ws_batch ws)) <= 10).
Proof.
  destruct (start_all_websockets_state tickers c) as (batches & Hb & Hrun & Hlen & Hcat & Hsize).
  exists (connections_for 1 batches).
  assert (Hcount : List.length (connections_for 1 batches) = List.length batches)
    by (rewrite <- (connections_for_batches 1 batches) at 2; now rewrite length_map).
  unfold result_of, state_after. rewrite Hrun.
  cbn [fst snd ws_connections total_batches set_ws_connections set_total_batches].
  rewrite connections_for_ids, connections_for_batches, Hcount.
  repeat split; try assumption; try reflexivity.
  - apply Hsize. rewrite <- (connections_for_batches 1 batches). now apply in_map.
  - apply Hsize. rewrite <- (connections_for_batches 1 batches). now apply in_map.
Qed.

(** ** A process started once *)

Lemma connections_for_id_ge (first : Z) (batches : list (list string)) (ws : ws_app) :
  In ws (connections_for first batches) -> first <= ws_batch_id ws.
Proof.
  revert first. induction batches as [| batch rest IH]; intros first; simpl; [intros [] |].
  intros [<- | H]; [simpl; lia |]. apply IH in H. lia.
Qed.

Lemma connections_for_nodup (first : Z) (batches : list (list string)) :
  NoDup (connections_for first batches).
Proof.
  revert first. induction batches as [| batch rest IH]; intros first; simpl; constructor.
  - intros H. apply connections_for_id_ge in H. simpl in H. lia.
  - apply IH.
Qed.

Lemma remove_first_in (ws w : ws_app) (l : list ws_app) :
  In w (remove_first ws l) -> In w l.
Proof.
  induction l as [| x rest IH]; simpl; [tauto |].
  destruct (ws_app_eq_dec ws x); simpl; [now right |].
  intros [H | H]; [now left | right; now apply IH].
Qed.

Lemma remove_first_nodup (ws : ws_app) (l : list ws_app) :
  NoDup l -> NoDup (remove_first ws l).
Proof.
  induction 1 as [| x rest Hx Hnd IH]; simpl; [constructor |].
  destruct (ws_app_eq_dec ws x); [exact Hnd |].
  constructor; [| exact IH]. intros H. apply Hx. now apply remove_first_in in H.
Qed.

Lemma remove_first_shorter (ws : ws_app) (l : list ws_app) :
  (List.length (remove_first ws l) <= List.length l)%nat.
Proof.
  induction l as [| x rest IH]; simpl; [lia |].
  destruct (ws_app_eq_dec ws x); simpl; lia.
Qed.

Lemma in_concat_batch (batches : list (list string)) (batch : list string) (ticker : string) :
  In batch batches -> In ticker batch -> In ticker (List.concat batches).
Proof.
  intros Hb Ht. apply in_concat. now exists batch.
Qed.

Lemma start_collection_coherent (reply : http_reply) :
  coherent (state_after (start_collection reply) init).
Proof.
  assert (Hinit : coherent init).
  { unfold coherent. simpl. repeat split; try constructor; try tauto; lia. }
  destruct (discovery_failed reply) eqn:Hfail.
  { unfold state_after, start_collection, fetch_spot_tickers, try_except, bind, lift, ret, modify.
    destruct reply as [| code body]; simpl; [exact Hinit |].
    destruct body as [e | symbols]; simpl in Hfail.
    - destruct (code =? 200); exact Hinit.
    - destruct (code =? 200); [discriminate | exact Hinit]. }
  destruct reply as [| code body]; [discriminate |].
  destruct body as [e | symbols]; [discriminate |].
  simpl in Hfail. apply negb_false_iff in Hfail.
  unfold state_after, start_collection, fetch_spot_tickers, try_except, bind, lift, ret, modify.
  rewrite Hfail. simpl.
  destruct symbols as [| s rest]; [exact Hinit |].
  destruct (start_all_websockets_state (s :: rest)
              (set_available_tickers (PySet.of_list (s :: rest)) init))
    as (batches & Hb & Hrun & Hlen & Hcat & Hsize).
  rewrite Hrun. unfold coherent.
  cbn [fst snd ws_connections total_batches set_ws_connections set_total_batches
       available_tickers subscribed_tickers completed_batches set_available_tickers init app].
  assert (Hcount : List.length (connections_for 1 batches) = List.length batches)
    by (rewrite <- (connections_for_batches 1 batches) at 2; now rewrite length_map).
  split; [apply pyset_update_nodup; constructor |].
  split; [constructor |]. split; [intros x [] |].
  split.
  { intros ws Hws.
    assert (Hin : In (ws_batch ws) batches)
      by (rewrite <- (connections_for_batches 1 batches); now apply in_map).
    split; [now apply Hsize |].
    intros ticker Ht. apply pyset_of_list_in. rewrite <- Hcat.
    now apply (in_concat_batch batches (ws_batch ws)). }
  split; [apply connections_for_nodup |]. split; lia.
Qed.

Lemma callback_coherent (P : platform) (delivers : collector -> frame -> Prop)
      (c c' : collector) :
  callback P delivers c c' -> coherent c -> coherent c'.
Proof.
  intros Hcb (Ha & Hs & Hsub & Hws & Hnd & Hlen & Hdone).
  destruct Hcb as [ws c Hin | ws message c Hin Hd | ws c Hin | ws c Hin
                  | symbol user_id username source now c].
  - unfold coherent. simpl. repeat split; try assumption; try (now apply Hws); try lia.
    + now apply pyset_update_nodup.
    + intros s Hs'. apply pyset_update_in in Hs'. destruct Hs' as [Hs' | Hs'].
      * now apply Hsub.
      * now apply (Hws ws Hin).
  - destruct (on_message_frame (fun _ => True) message c) as (d & Hrun & _); [tauto | exact I |].
    unfold state_after. rewrite Hrun. unfold coherent. simpl.
    repeat split; try assumption; now apply Hws.
  - unfold coherent. simpl. repeat split; try assumption; now apply Hws.
  - unfold coherent. simpl. repeat split; try assumption.
    + apply Hws. now apply remove_first_in in H.
    + apply Hws. now apply remove_first_in in H.
    + apply Hws. now apply remove_first_in in H.
    + now apply remove_first_nodup.
    + pose proof (remove_first_shorter ws (ws_connections c)). lia.
  - destruct (get_ticker_data_state P symbol user_id username source now c) as (d & Hrun).
    rewrite Hrun. unfold coherent. simpl. repeat split; try assumption; now apply Hws.
Qed.

Lemma started_coherent (P : platform) (delivers : collector -> frame -> Prop) (c : collector) :
  started P delivers c -> coherent c.
Proof.
  induction 1 as [reply | c c' Hstarted IH Hcb].
  - apply start_collection_coherent.
  - now apply (callback_coherent P delivers c c').
Qed.

Lemma sample_started_run (P : platform) (delivers : collector -> frame -> Prop) :
  delivers Sample.opened Sample.btc_frame -> started P delivers Sample.streaming.
Proof.
  intros Hd.
  assert (Hws : In Sample.ws1 (ws_connections Sample.started)) by (now left).
  eapply started_next;
    [| apply (callback_message P delivers Sample.ws1); [exact Hws | exact Hd]].
  eapply started_next; [| apply (callback_open P delivers Sample.ws1); exact Hws].
  apply (started_first P delivers (Response 200 (InstrumentList Sample.universe))).
Qed.

(** X8: in a process that ran [start_collection] once on a fresh
    collector, whatever callbacks and queries followed, every subscribed
    symbol is a discovered one; every active connection carries between
    one and ten symbols, all of them discovered; and there are never more
    active connections than [total_batches]. *)
Theorem subscribed_within_universe (P : platform) (delivers : collector -> frame -> Prop)
        (c : collector) :
  started P delivers c ->
  (forall s, In s (subscribed_tickers c) -> In s (available_tickers c)) /\
  (forall ws ticker, In ws (ws_connections c) -> In ticker (ws_batch ws) ->
                     In ticker (available_tickers c)) /\
  (forall ws, In ws (ws_connections c) -> 1 <= Z.of_nat (List.length (ws_batch ws)) <= 10) /\
  Z.of_nat (List.length (ws_connections c)) <= total_batches c.
Proof.
  intros H. destruct (started_coherent P delivers c H) as (_ & _ & Hsub & Hws & _ & Hlen & _).
  split; [exact Hsub |]. split; [| split; [| exact Hlen]].
  - intros ws ticker Hin. now apply (Hws ws Hin).
  - intros ws Hin. now apply (Hws ws Hin).
Qed.

Lemma subscribed_within_universe_witness :
  started Sample.platform0 any_frame Sample.streaming /\
  forall s, In s (subscribed_tickers Sample.streaming) ->
            In s (available_tickers Sample.streaming).
Proof.
  assert (H : started Sample.platform0 any_frame Sample.streaming)
    by (apply sample_started_run; exact I).
  split; [exact H |].
  exact (proj1 (subscribed_within_universe Sample.platform0 any_frame Sample.streaming H)).
Defined.

(** X9: in such a process [get_stats] changes nothing and reports counts
    that hang together: the number of subscribed symbols is at most the
    number of discovered ones, and the number of active connections is at
    most the total in [batch_progress]. *)
Theorem get_stats_coherent (P : platform) (delivers : collector -> frame -> Prop)
        (c : collector) :
  started P delivers c ->
  exists available subscribed stored active requests,
    result_of get_stats c
    = Returned (JObj [("available_tickers", JInt available);
                      ("subscribed_tickers", JInt subscribed);
                      ("current_data", JInt stored);
                      ("active_connections", JInt active);
                      ("batch_progress", JStr (PyStr.of_Z (completed_batches c) ++ "/"
                                               ++ PyStr.of_Z (total_batches c)));
                      ("user_requests_count", JInt requests)]) /\
    state_after get_stats c = c /\
    0 <= subscribed <= available /\
    0 <= active <= total_batches c /\
    0 <= completed_batches c.
Proof.
  intros H.
  destruct (started_coherent P delivers c H) as (_ & Hs & Hsub & _ & _ & Hlen & Hdone).
  do 5 eexists. split; [reflexivity |]. split; [reflexivity |].
  split; [| split; [lia | exact Hdone]].
  split; [lia |]. apply inj_le. now apply NoDup_incl_length.
Qed.

Lemma get_stats_coherent_witness :
  started Sample.platform0 any_frame Sample.streaming /\
  exists available subscribed stored active requests,
    result_of get_stats Sample.streaming
    = Returned (JObj [("available_tickers", JInt available);
                      ("subscribed_tickers", JInt subscribed);
                      ("current_data", JInt stored);
                      ("active_connections", JInt active);
                      ("batch_progress", JStr "1/1");
                      ("user_requests_count", JInt requests)]) /\
    state_after get_stats Sample.streaming = Sample.streaming /\
    0 <= subscribed <= available /\
    0 <= active <= 1 /\
    0 <= 1.
Proof.
  assert (H : started Sample.platform0 any_frame Sample.streaming)
    by (apply sample_started_run; exact I).
  split; [exact H |].
  exact (get_stats_coherent Sample.platform0 any_frame Sample.streaming H).
Defined.



(** ** Nothing is forgotten *)

Lemma dict_keys_set_keeps {V : Type} (k k' : pykey) (v : V) (d : PyDict.t V) :
  In k' (PyDict.keys d) -> In k' (PyDict.keys (PyDict.set k v d)).
Proof.
  intros H. rewrite dict_keys_set.
  destruct (in_dec pykey_eq_dec k (PyDict.keys d)); [exact H |].
  apply in_or_app. now left.
Qed.

Lemma get_ticker_data_requests (P : platform) (symbol : string)
      (user_id username : option string) (source : string) (now : spec_float)
      (c : collector) :
  let c' := state_after (get_ticker_data P symbol user_id username source now) c in
  c' = c \/
  exists uid record,
    c' = set_user_requests (PyDict.set (KStr uid) record (user_requests c)) c.
Proof.
  unfold state_after, get_ticker_data, bind, read, lift, ret, log_user_request, modify.
  destruct (arg_truthy user_id && arg_truthy username);
    [destruct user_id as [uid |]; [destruct username as [name |] |] |]; simpl;
    match goal with
    | |- context [if ?b then _ else _] => destruct b
    end; simpl; first [now left | right; now eexists _, _].
Qed.

Lemma step_keeps (P : platform) (delivers : collector -> frame -> Prop) (c c' : collector) :
  step P delivers c c' ->
  completed_batches c <= completed_batches c' /\
  incl (subscribed_tickers c) (subscribed_tickers c') /\
  incl (PyDict.keys (current_data c)) (PyDict.keys (current_data c')) /\
  incl (PyDict.keys (user_requests c)) (PyDict.keys (user_requests c')).
Proof.
  intros [reply c0 | ws c0 Hws | ws message c0 Hws Hd | ws c0 Hws | ws c0 Hws
         | symbol user_id username source now c0].
  - destruct (start_collection_state reply c0) as (H1 & H2 & H3 & H4).
    rewrite H1, H2, H3, H4.
    refine (conj _ (conj _ (conj _ _))); [lia | | |]; apply incl_refl.
  - refine (conj _ (conj _ (conj _ _))); simpl; [lia | | apply incl_refl | apply incl_refl].
    intros s. apply pyset_update_keeps.
  - destruct (on_message_frame
                (fun d => incl (PyDict.keys (current_data c0)) (PyDict.keys d)) message c0)
      as (d & Hrun & Hd').
    + intros d0 fields symbol k _ Hinc _ _ _ k' Hk'. apply dict_keys_set_keeps. now apply Hinc.
    + apply incl_refl.
    + unfold state_after. rewrite Hrun.
      refine (conj _ (conj _ (conj _ _))); simpl; [lia | apply incl_refl | exact Hd' |
                                                    apply incl_refl].
  - change (state_after on_error c0) with c0.
    refine (conj _ (conj _ (conj _ _))); [lia | | |]; apply incl_refl.
  - refine (conj _ (conj _ (conj _ _))); simpl; [lia | | |]; apply incl_refl.
  - destruct (get_ticker_data_requests P symbol user_id username source now c0)
      as [Hsame | (uid & record & Hlog)].
    + rewrite Hsame. refine (conj _ (conj _ (conj _ _))); [lia | | |]; apply incl_refl.
    + rewrite Hlog.
      refine (conj _ (conj _ (conj _ _))); simpl; [lia | apply incl_refl | apply incl_refl |].
      intros k. apply dict_keys_set_keeps.
Qed.

(** X11: nothing a run does makes the collector forget: over any number of
    steps (a start, callbacks of connections, the close of one among
    them, queries) the counter of completed batches never goes down, a
    subscribed symbol stays subscribed, a symbol with a snapshot in the
    store keeps one, and a requester once logged stays in the log. *)
Theorem nothing_is_forgotten (P : platform) (delivers : collector -> frame -> Prop)
        (c c' : collector) :
  steps P delivers c c' ->
  completed_batches c <= completed_batches c' /\
  incl (subscribed_tickers c) (subscribed_tickers c') /\
  incl (PyDict.keys (current_data c)) (PyDict.keys (current_data c')) /\
  incl (PyDict.keys (user_requests c)) (PyDict.keys (user_requests c')).
Proof.
  induction 1 as [c | c c' c'' Hsteps IH Hstep].
  - refine (conj _ (conj _ (conj _ _))); [lia | | |]; apply incl_refl.
  - destruct IH as (H1 & H2 & H3 & H4).
    destruct (step_keeps P delivers c' c'' Hstep) as (H1' & H2' & H3' & H4').
    refine (conj _ (conj _ (conj _ _))); [lia | | |]; eapply incl_tran; eassumption.
Qed.

Lemma nothing_is_forgotten_witness :
  steps Sample.platform0 any_frame Sample.streaming
        (state_after (on_close Sample.ws1) Sample.streaming) /\
  incl (PyDict.keys (current_data Sample.streaming))
       (PyDict.keys (current_data (state_after (on_close Sample.ws1) Sample.streaming))).
Proof.
  assert (H : steps Sample.platform0 any_frame Sample.streaming
                    (state_after (on_close Sample.ws1) Sample.streaming)).
  { eapply steps_next; [apply steps_none |].
    apply (step_close Sample.platform0 any_frame Sample.ws1). now left. }
  split; [exact H |].
  exact (proj1 (proj2 (proj2 (nothing_is_forgotten Sample.platform0 any_frame _ _ H)))).
Defined.

(** ** From a delivered ticker to the answer of a lookup *)

Lemma symbol_of_some (item : json) (s : string) :
  symbol_of item = Some s ->
  exists fields, item = JObj fields /\ assoc "symbol" fields = Some (JStr s) /\ s <> "".
Proof.
  unfold symbol_of. destruct item as [| b | n | t | l | fields]; try discriminate.
  destruct (assoc "symbol" fields) as [[| b | n | t | l | o] |] eqn:Ha; try discriminate.
  destruct (String.eqb t "") eqn:E; [discriminate |].
  intros H. inversion H; subst t. exists fields.
  split; [reflexivity |]. split; [exact Ha |].
  intros Heq. rewrite Heq in E. discriminate.
Qed.

Lemma store_ticker_upserts (item : json) (s : string) (c : collector) :
  symbol_of item = Some s ->
  store_ticker item c
  = (Returned tt, set_current_data (PyDict.set (KStr s) item (current_data c)) c).
Proof.
  intros H. destruct (symbol_of_some item s H) as (fields & -> & Hsym & Hs).
  unfold store_ticker, bind, lift. simpl. rewrite Hsym. simpl.
  destruct (String.eqb s "") eqn:E; [apply String.eqb_eq in E; contradiction |].
  reflexivity.
Qed.

Lemma on_message_ticker (topic : string) (payload : json) (c : collector) :
  PyStr.contains "tickers" topic = true ->
  on_message (ticker_message topic payload) c
  = try_except (match payload with
                | JObj _ => store_ticker payload
                | JArr items => for_each items store_ticker
                | _ => ret tt
                end) (fun _ => ret tt) c.
Proof.
  intros Ht. unfold on_message, ticker_message, try_except, on_message_body, bind, lift.
  simpl. rewrite Ht. reflexivity.
Qed.

Lemma on_message_single (topic : string) (item : json) (s : string) (c : collector) :
  PyStr.contains "tickers" topic = true ->
  symbol_of item = Some s ->
  on_message (ticker_message topic item) c
  = (Returned tt, set_current_data (PyDict.set (KStr s) item (current_data c)) c).
Proof.
  intros Ht Hs. rewrite on_message_ticker by exact Ht.
  destruct (symbol_of_some item s Hs) as (fields & -> & _).
  unfold try_except. now rewrite (store_ticker_upserts (JObj fields) s c Hs).
Qed.

(** X12: a ticker object delivered under a topic that names [tickers] is
    what the next lookup answers from: for every input that resolves to
    the ticker's symbol, the lookup made right after the handler returns
    evaluates to the result built from exactly that object, whatever the
    store held for the symbol before. *)
Theorem lookup_answers_from_latest_ticker (P : platform) (topic : string) (item : json)
        (s user_input : string) (user_id username : option string) (source : string)
        (now : spec_float) (c : collector) :
  PyStr.contains "tickers" topic = true ->
  symbol_of item = Some s ->
  find_ticker (upper P) c user_input = s ->
  result_of (get_ticker_data P user_input user_id username source now)
            (state_after (on_message (ticker_message topic item)) c)
  = found_result P item.
Proof.
  intros Ht Hs Hfind. unfold state_after. rewrite (on_message_single topic item s c Ht Hs).
  rewrite get_ticker_data_result. cbv zeta.
  change (find_ticker (upper P) (snd (Returned tt, set_current_data
            (PyDict.set (KStr s) item (current_data c)) c)) user_input)
    with (find_ticker (upper P) c user_input).
  rewrite Hfind. simpl. rewrite dict_get_set_same.
  destruct (symbol_of_some item s Hs) as (fields & -> & Hsym & _).
  rewrite truthy_object; [reflexivity |].
  intros ->. discriminate.
Qed.

Lemma lookup_answers_from_latest_ticker_witness :
  result_of (get_ticker_data Sample.platform0 "btc" None None "TG" Sample.t0)
            (state_after (on_message (ticker_message "tickers.BTCUSDT" Sample.btc))
                         Sample.opened)
  = Returned (JObj [("symbol", JStr "BTCUSDT"); ("last_price", JStr "50000");
                    ("price_change_24h", JStr "0.05"); ("high_price_24h", JStr "N/A");
                    ("low_price_24h", JStr "N/A"); ("volume_24h", JStr "N/A");
                    ("timestamp", JStr "N/A");
                    ("price_change_percent_24h", JStr "5.00%")]).
Proof.
  exact (lookup_answers_from_latest_ticker Sample.platform0 "tickers.BTCUSDT" Sample.btc
           "BTCUSDT" "btc" None None "TG" Sample.t0 Sample.opened eq_refl eq_refl eq_refl).
Defined.

(** X13: the upsert of one ticker is local: the snapshot of every other key
    is what it was; a symbol already in the store keeps its place and the
    store its size, a new symbol goes to the end; and nothing but the
    store changes. *)
Theorem upsert_is_local (topic : string) (item : json) (s : string) (c : collector) :
  PyStr.contains "tickers" topic = true ->
  symbol_of item = Some s ->
  let c' := state_after (on_message (ticker_message topic item)) c in
  (forall k, k <> KStr s -> PyDict.get k (current_data c') = PyDict.get k (current_data c)) /\
  (In (KStr s) (PyDict.keys (current_data c)) ->
   PyDict.keys (current_data c') = PyDict.keys (current_data c)) /\
  (~ In (KStr s) (PyDict.keys (current_data c)) ->
   PyDict.keys (current_data c') = (PyDict.keys (current_data c) ++ [KStr s])%list) /\
  c' = set_current_data (current_data c') c.
Proof.
  intros Ht Hs c'. unfold c', state_after. rewrite (on_message_single topic item s c Ht Hs).
  simpl. split; [intros k Hk; now apply dict_get_set_other |].
  rewrite dict_keys_set.
  destruct (in_dec pykey_eq_dec (KStr s) (PyDict.keys (current_data c))) as [Hin | Hout];
    repeat split; try reflexivity; intros H; contradiction.
Qed.

Lemma upsert_is_local_witness :
  PyDict.keys (current_data (state_after (on_message (ticker_message "tickers.BTCUSDT"
                                                                       Sample.btc))
                                         Sample.streaming))
  = [KStr "BTCUSDT"].
Proof.
  refine (proj1 (proj2 (upsert_is_local "tickers.BTCUSDT" Sample.btc "BTCUSDT"
                          Sample.streaming eq_refl eq_refl)) _).
  now left.
Defined.

(** ** A list of tickers in one frame *)

Lemma for_each_upserts (items : list json) (c : collector) :
  Forall (fun item => symbol_of item <> None) items ->
  for_each items store_ticker c
  = (Returned tt,
     set_current_data
       (fold_left (fun d item => match symbol_of item with
                                 | Some s => PyDict.set (KStr s) item d
                                 | None => d
                                 end) items (current_data c)) c).
Proof.
  intros H. revert c. induction H as [| item rest Hitem Hrest IH]; intros c; simpl.
  - now rewrite set_current_data_same.
  - destruct (symbol_of item) as [s |] eqn:Hs; [| congruence].
    unfold bind. rewrite (store_ticker_upserts item s c Hs). rewrite IH. reflexivity.
Qed.

Lemma upserts_skip_other_keys (items : list json) (d : PyDict.t json) (k : pykey) :
  (forall item s, In item items -> symbol_of item = Some s -> k <> KStr s) ->
  PyDict.get k (fold_left (fun d item => match symbol_of item with
                                         | Some s => PyDict.set (KStr s) item d
                                         | None => d
                                         end) items d)
  = PyDict.get k d.
Proof.
  revert d. induction items as [| item rest IH]; intros d Hk; simpl; [reflexivity |].
  rewrite IH by (intros x s Hx; apply Hk; now right).
  destruct (symbol_of item) as [s |] eqn:Hs; [| reflexivity].
  apply dict_get_set_other. apply (Hk item s); [now left | exact Hs].
Qed.

(** X14: a frame whose payload is a list of ticker objects, each with a
    non-empty string symbol, is stored whole: after the handler returns
    the store answers, for every symbol in the list, with the last object
    of the list that carries it, and for every key the list does not
    mention with what it held before. *)
Theorem list_payload_is_stored (topic : string) (items : list json) (c : collector) :
  PyStr.contains "tickers" topic = true ->
  Forall (fun item => symbol_of item <> None) items ->
  let c' := state_after (on_message (ticker_message topic (JArr items))) c in
  (forall before item after s,
      items = (before ++ item :: after)%list ->
      symbol_of item = Some s ->
      (forall x, In x after -> symbol_of x <> Some s) ->
      PyDict.get (KStr s) (current_data c') = Some item) /\
  (forall k,
      (forall item s, In item items -> symbol_of item = Some s -> k <> KStr s) ->
      PyDict.get k (current_data c') = PyDict.get k (current_data c)).
Proof.
  intros Ht Hwf c'. unfold c', state_after.
  rewrite on_message_ticker by exact Ht. unfold try_except.
  rewrite (for_each_upserts items c Hwf). simpl. split.
  - intros before item after s -> Hs Hafter.
    rewrite fold_left_app. simpl. rewrite Hs.
    rewrite upserts_skip_other_keys.
    + apply dict_get_set_same.
    + intros x s' Hx Hs' Heq. inversion Heq; subst s'. now apply (Hafter x).
  - intros k Hk. now apply upserts_skip_other_keys.
Qed.

Lemma list_payload_is_stored_witness :
  PyDict.get (KStr "ADAUSDT")
             (current_data
                (state_after
                   (on_message (ticker_message "tickers" (JArr [JObj Sample.null_percent_fields;
                                                                 Sample.btc;
                                                                 JObj Sample.ada_fields])))
                   Sample.opened))
  = Some (JObj Sample.ada_fields).
Proof.
  refine (proj1 (list_payload_is_stored "tickers"
                   [JObj Sample.null_percent_fields; Sample.btc; JObj Sample.ada_fields]
                   Sample.opened eq_refl _)
                [JObj Sample.null_percent_fields; Sample.btc] (JObj Sample.ada_fields) []
                "ADAUSDT" eq_refl eq_refl _).
  - repeat constructor; discriminate.
  - intros x [].
Defined.

(** ** The bot's reply *)

Lemma result_of_bind_lift {A B : Type} (m : M A) (f : A -> outcome B) (c : collector) :
  result_of (x <- m ;; lift (f x)) c = obind (result_of m c) f.
Proof.
  unfold result_of, bind, lift, obind. now destruct (m c) as [[a | e] c1].
Qed.

Lemma response_text_of_found (P : platform) (format_other : json -> string)
      (data result : json) :
  found_result P data = Returned result ->
  exists text, response_text format_other result = Returned text.
Proof.
  destruct data as [| b | n | s | l | fields]; try discriminate.
  rewrite found_result_fields.
  destruct (timestamp_field P fields) as [timestamp | e]; [| discriminate].
  destruct (percent_field P fields) as [percent | e]; [| discriminate].
  simpl. intros H. inversion H; subst result.
  destruct percent; simpl; eexists; reflexivity.
Qed.

(** X15: [send_ticker_data] can read every key it asks for: whenever the
    lookup returns, found or not, the reply text is built without a
    [KeyError]; and for a symbol with no entry in the store the reply is
    the cross mark, the error text with the raw input, a blank line and
    the hint with the number of subscribed symbols. *)
Theorem send_ticker_data_replies (P : platform) (format_other : json -> string)
        (user_id : Z) (first_name ticker_symbol : string) (now : spec_float)
        (c : collector) :
  let answer := result_of (get_ticker_data P ticker_symbol (Some (PyStr.of_Z user_id))
                                           (Some first_name) "TG" now) c in
  let reply := result_of (send_ticker_data P format_other user_id first_name
                                           ticker_symbol now) c in
  (forall result, answer = Returned result -> exists text, reply = Returned text) /\
  (forall e, answer = Raised e -> reply = Raised e) /\
  (PyDict.get (KStr (find_ticker (upper P) c ticker_symbol)) (current_data c) = None ->
   reply = Returned ("❌ " ++ ("Данные для " ++ ticker_symbol ++ " не найдены")
                     ++ newline ++ newline
                     ++ "💡 Подсказка: "
                     ++ ("Подписано тикетов: "
                         ++ PyStr.of_Z (Z.of_nat (List.length (subscribed_tickers c)))))).
Proof.
  intros answer reply. unfold reply, send_ticker_data. rewrite result_of_bind_lift.
  fold answer. unfold answer. rewrite get_ticker_data_result. cbv zeta.
  split; [| split].
  - intros result.
    destruct (truthy _).
    + intros H. rewrite H. simpl. exact (response_text_of_found P format_other _ result H).
    + intros H. inversion H. simpl. eexists. reflexivity.
  - intros e H. rewrite H. reflexivity.
  - intros H. rewrite H. simpl. reflexivity.
Qed.

Lemma send_ticker_data_replies_witness :
  exists text,
    result_of (send_ticker_data Sample.platform0 (fun _ => "?") 42 "Ann" "btc" Sample.t0)
              Sample.streaming = Returned text.
Proof.
  exact (proj1 (send_ticker_data_replies Sample.platform0 (fun _ => "?") 42 "Ann" "btc"
                  Sample.t0 Sample.streaming) _ eq_refl).
Defined.

(** ** What the envelope of a frame decides *)

(** X16: the envelope decides little: a frame with a truthy [success] is
    dropped whole, tickers in it included; and of the topic only the fact
    that it contains [tickers] is used, so the same payload under any two
    such topics has the same effect: the key comes from the payload. *)
Theorem envelope_decides_little (fields : list (string * json)) (flag : json)
        (topic topic' : string) (payload : json) (c : collector) :
  (assoc "success" fields = Some flag -> truthy flag = true ->
   on_message (Parsed (JObj fields)) c = (Returned tt, c)) /\
  (PyStr.contains "tickers" topic = true -> PyStr.contains "tickers" topic' = true ->
   on_message (ticker_message topic payload) c
   = on_message (ticker_message topic' payload) c) /\
  (PyStr.contains "tickers" topic = false ->
   on_message (ticker_message topic payload) c = (Returned tt, c)).
Proof.
  split; [| split].
  - intros Hflag Ht.
    unfold on_message, try_except, on_message_body, bind, lift, ret.
    unfold in_and at 1. simpl. rewrite Hflag. simpl. rewrite Ht. reflexivity.
  - intros H H'. now rewrite !on_message_ticker.
  - intros H. unfold on_message, ticker_message, try_except, on_message_body, bind, lift, ret.
    simpl. rewrite H. reflexivity.
Qed.

Lemma envelope_decides_little_witness :
  on_message (Parsed (JObj [("success", JBool true); ("topic", JStr "tickers.BTCUSDT");
                            ("data", Sample.btc)])) Sample.opened
  = (Returned tt, Sample.opened).
Proof.
  exact (proj1 (envelope_decides_little
                  [("success", JBool true); ("topic", JStr "tickers.BTCUSDT");
                   ("data", Sample.btc)] (JBool true) "" "" JNull Sample.opened)
               eq_refl eq_refl).
Defined.

(** ** Lookups and tickers that do not interfere *)

(** X17: a lookup does not change what lookups return: the answer to any
    lookup made after another one is the answer it would have had without
    it. *)
Theorem lookups_do_not_interfere (P : platform) (symbol symbol' : string)
        (user_id username user_id' username' : option string) (source source' : string)
        (now now' : spec_float) (c : collector) :
  result_of (get_ticker_data P symbol' user_id' username' source' now')
            (state_after (get_ticker_data P symbol user_id username source now) c)
  = result_of (get_ticker_data P symbol' user_id' username' source' now') c.
Proof.
  destruct (get_ticker_data_state P symbol user_id username source now c) as (d & ->).
  now rewrite !get_ticker_data_result.
Qed.

(** X18: tickers of different symbols do not interfere: delivered in
    either order, two tickers of two symbols leave a store that answers
    every key alike; only the order of the store's keys may differ. *)
Theorem tickers_of_two_symbols_commute (topic topic' : string) (item item' : json)
        (s s' : string) (c : collector) (k : pykey) :
  PyStr.contains "tickers" topic = true ->
  PyStr.contains "tickers" topic' = true ->
  symbol_of item = Some s ->
  symbol_of item' = Some s' ->
  s <> s' ->
  PyDict.get k (current_data
                  (state_after (on_message (ticker_message topic' item'))
                               (state_after (on_message (ticker_message topic item)) c)))
  = PyDict.get k (current_data
                    (state_after (on_message (ticker_message topic item))
                                 (state_after (on_message (ticker_message topic' item')) c))).
Proof.
  intros Ht Ht' Hs Hs' Hne. unfold state_after.
  rewrite (on_message_single topic item s c Ht Hs).
  rewrite (on_message_single topic' item' s' c Ht' Hs').
  cbn [snd].
  rewrite (on_message_single topic' item' s' _ Ht' Hs').
  rewrite (on_message_single topic item s _ Ht Hs).
  cbn [snd current_data set_current_data].
  destruct (pykey_eq_dec k (KStr s)) as [-> | Hk].
  - rewrite dict_get_set_other by congruence.
    now rewrite !dict_get_set_same.
  - rewrite (dict_get_set_other (KStr s) k) by exact Hk.
    destruct (pykey_eq_dec k (KStr s')) as [-> | Hk'].
    + now rewrite !dict_get_set_same.
    + now rewrite !dict_get_set_other by assumption.
Qed.

Lemma tickers_of_two_symbols_commute_witness :
  PyDict.get (KStr "BTCUSDT")
             (current_data
                (state_after (on_message (ticker_message "tickers.ADAUSDT"
                                                         (JObj Sample.ada_fields)))
                             (state_after (on_message (ticker_message "tickers.BTCUSDT"
                                                                      Sample.btc))
                                          Sample.opened)))
  = Some Sample.btc.
Proof.
  rewrite (tickers_of_two_symbols_commute "tickers.BTCUSDT" "tickers.ADAUSDT" Sample.btc
             (JObj Sample.ada_fields) "BTCUSDT" "ADAUSDT" Sample.opened (KStr "BTCUSDT")
             eq_refl eq_refl eq_refl eq_refl).
  - reflexivity.
  - discriminate.
Defined.

(** ** Resolving what was resolved *)

Lemma upper_char_idempotent (ch : ascii) :
  PyStr.upper_char (PyStr.upper_char ch) = PyStr.upper_char ch.
Proof. destruct ch as [[] [] [] [] [] [] [] []]; reflexivity. Qed.

Lemma upper_char_space (ch : ascii) :
  PyStr.upper_char ch = " "%char -> ch = " "%char.
Proof. destruct ch as [[] [] [] [] [] [] [] []]; intros H; try reflexivity; discriminate. Qed.

Lemma remove_spaces_cons (ch : ascii) (s : string) :
  PyStr.remove_all " " (String ch s)
  = if ascii_dec " " ch
    then PyStr.remove_all " " s
    else String ch (PyStr.remove_all " " s).
Proof.
  unfold PyStr.remove_all.
  cbn [PyStr.remove_from prefix String.length Nat.pred].
  destruct (ascii_dec " " ch); [destruct s; reflexivity | reflexivity].
Qed.

Lemma remove_spaces_upper (s : string) :
  PyStr.remove_all " " (PyStr.ascii_upper s) = PyStr.ascii_upper (PyStr.remove_all " " s).
Proof.
  induction s as [| ch s IH]; [reflexivity |].
  cbn [PyStr.ascii_upper]. rewrite !remove_spaces_cons.
  destruct (ascii_dec " " ch) as [<- | Hne].
  - destruct (ascii_dec " " (PyStr.upper_char " ")) as [_ | Hbad]; [exact IH |].
    exfalso. now apply Hbad.
  - destruct (ascii_dec " " (PyStr.upper_char ch)) as [Heq | _].
    + symmetry in Heq. apply upper_char_space in Heq. congruence.
    + cbn [PyStr.ascii_upper]. now rewrite IH.
Qed.

Lemma remove_spaces_idempotent (s : string) :
  PyStr.remove_all " " (PyStr.remove_all " " s) = PyStr.remove_all " " s.
Proof.
  induction s as [| ch s IH]; [reflexivity |].
  rewrite remove_spaces_cons. destruct (ascii_dec " " ch) as [Heq | Hne]; [exact IH |].
  rewrite remove_spaces_cons. destruct (ascii_dec " " ch); [contradiction | now rewrite IH].
Qed.

Lemma ascii_upper_idempotent (s : string) :
  PyStr.ascii_upper (PyStr.ascii_upper s) = PyStr.ascii_upper s.
Proof.
  induction s as [| ch s IH]; [reflexivity |].
  cbn [PyStr.ascii_upper]. now rewrite upper_char_idempotent, IH.
Qed.

Lemma normalize_ascii_idempotent (s : string) :
  normalize PyStr.ascii_upper (normalize PyStr.ascii_upper s) = normalize PyStr.ascii_upper s.
Proof.
  unfold normalize.
  rewrite <- (remove_spaces_upper (PyStr.ascii_upper s)).
  now rewrite remove_spaces_idempotent, ascii_upper_idempotent.
Qed.

(** X19: resolution is stable: when normalising twice is normalising once
    (as it is for ASCII input) and the subscribed symbols are in normal
    form (upper case, no space, as the venue lists them), resolving what
    [find_ticker] returned gives the same symbol again. *)
Theorem find_ticker_stable (to_upper : string -> string) (c : collector) (user_input : string) :
  (forall s, normalize to_upper (normalize to_upper s) = normalize to_upper s) ->
  (forall s, In s (subscribed_tickers c) -> normalize to_upper s = s) ->
  find_ticker to_upper c (find_ticker to_upper c user_input)
  = find_ticker to_upper c user_input.
Proof.
  intros Hidem Hnormal.
  assert (Hsub : forall s, In s (subscribed_tickers c) -> find_ticker to_upper c s = s).
  { intros s Hs. unfold find_ticker. rewrite (Hnormal s Hs).
    apply pyset_mem_in in Hs. now rewrite Hs. }
  unfold find_ticker at 2 3.
  set (u := normalize to_upper user_input).
  destruct (PySet.mem u (subscribed_tickers c)) eqn:E1.
  { apply Hsub. now apply pyset_mem_in. }
  destruct (negb (PyStr.endswith u "USDT") && PySet.mem (u ++ "USDT") (subscribed_tickers c))
    eqn:E2.
  { apply Hsub. apply andb_prop in E2. destruct E2 as [_ E2]. now apply pyset_mem_in. }
  destruct (first_stripped_match u (subscribed_tickers c)) as [ticker |] eqn:E3.
  { apply Hsub. now apply first_stripped_match_in in E3. }
  assert (Hu : normalize to_upper u = u) by apply Hidem.
  unfold find_ticker. cbv zeta. rewrite Hu, E1, E2, E3. reflexivity.
Qed.

Lemma find_ticker_stable_witness :
  find_ticker PyStr.ascii_upper Sample.opened
              (find_ticker PyStr.ascii_upper Sample.opened "b tc")
  = find_ticker PyStr.ascii_upper Sample.opened "b tc".
Proof.
  apply (find_ticker_stable PyStr.ascii_upper Sample.opened "b tc").
  - exact normalize_ascii_idempotent.
  - intros s [<- | [<- | [<- | []]]]; reflexivity.
Defined.

(** ** A malformed element in a list *)

Lemma store_ticker_returns (item : json) (c : collector) :
  store_raises item = false -> result_of (store_ticker item) c = Returned tt.
Proof.
  unfold result_of, store_ticker, store_raises, bind, lift.
  destruct item as [| b | n | s | l | fields]; try discriminate. simpl.
  destruct (assoc "symbol" fields) as [symbol |]; simpl; [| reflexivity].
  destruct (truthy symbol); simpl; [| reflexivity].
  destruct (py_key symbol); [reflexivity | discriminate].
Qed.

Lemma store_ticker_raises (item : json) (c : collector) :
  store_raises item = true -> exists e, store_ticker item c = (Raised e, c).
Proof.
  unfold store_ticker, store_raises, bind, lift.
  destruct item as [| b | n | s | l | fields]; simpl; try (intros _; eexists; reflexivity).
  destruct (assoc "symbol" fields) as [symbol |]; simpl; [| discriminate].
  destruct (truthy symbol); simpl; [| discriminate].
  destruct (py_key symbol); [discriminate | intros _; eexists; reflexivity].
Qed.

Lemma for_each_stops (good rest : list json) (bad : json) (c : collector) :
  Forall (fun item => store_raises item = false) good ->
  store_raises bad = true ->
  state_after (for_each (good ++ bad :: rest) store_ticker) c
  = state_after (for_each good store_ticker) c.
Proof.
  intros Hgood Hbad. revert c.
  induction Hgood as [| item good Hitem Hgood IH]; intros c; simpl.
  - destruct (store_ticker_raises bad c Hbad) as (e & He).
    unfold state_after, bind. now rewrite He.
  - pose proof (store_ticker_returns item c Hitem) as Hret.
    unfold state_after, result_of, bind in *.
    destruct (store_ticker item c) as [[[] | e] c1]; simpl in Hret; [apply IH | discriminate].
Qed.

(** X20: a malformed element cuts a list short: when a list payload holds
    an element on which the handler raises (one that is not an object, or
    an object with an unhashable symbol) after elements on which it does
    not, the handler leaves the collector exactly as the list of those
    leading elements alone would: they are stored, the malformed element
    and all that follows it are dropped, and no error surfaces. *)
Theorem malformed_element_cuts_list (topic : string) (good rest : list json) (bad : json)
        (c : collector) :
  PyStr.contains "tickers" topic = true ->
  Forall (fun item => store_raises item = false) good ->
  store_raises bad = true ->
  on_message (ticker_message topic (JArr (good ++ bad :: rest))) c
  = on_message (ticker_message topic (JArr good)) c.
Proof.
  intros Ht Hgood Hbad. rewrite !on_message_ticker by exact Ht.
  pose proof (for_each_stops good rest bad c Hgood Hbad) as Hstate.
  unfold try_except, state_after in *.
  destruct (for_each (good ++ bad :: rest) store_ticker c) as [[[] | e] c1];
    destruct (for_each good store_ticker c) as [[[] | e'] c2];
    simpl in Hstate; now subst.
Qed.

Lemma malformed_element_cuts_list_witness :
  on_message (ticker_message "tickers.BTCUSDT"
                             (JArr [Sample.btc; JInt 5; JObj Sample.ada_fields]))
             Sample.opened
  = (Returned tt, Sample.streaming).
Proof.
  refine (eq_trans (malformed_element_cuts_list "tickers.BTCUSDT" [Sample.btc]
                      [JObj Sample.ada_fields] (JInt 5) Sample.opened eq_refl _ eq_refl) _).
  - repeat constructor.
  - reflexivity.
Defined.

(** ** An entry is never mistaken for a missing one *)

Lemma dict_get_in {V : Type} (k : pykey) (v : V) (d : PyDict.t V) :
  PyDict.get k d = Some v -> In (k, v) d.
Proof.
  induction d as [| [k' v'] rest IH]; simpl; [discriminate |].
  destruct (pykey_eqb k k') eqn:E.
  - apply pykey_eqb_eq in E. subst k'. intros H. inversion H. now left.
  - intros H. right. now apply IH.
Qed.

Lemma reachable_entries_truthy (P : platform) (delivers : collector -> frame -> Prop)
      (c : collector) :
  reachable P delivers c ->
  forall k v, In (k, v) (current_data c) -> truthy v = true.
Proof.
  induction 1 as [| c c' Hreach IH Hstep].
  - intros k v [].
  - destruct (step_store P delivers c c' Hstep) as [(message & -> & _) | (Hsame & _)].
    + destruct (on_message_frame
                  (fun d => forall k v, In (k, v) d -> truthy v = true) message c)
        as (d & Hrun & Hd).
      * intros d fields symbol k _ Hinv Hsym _ _ k' v Hin.
        apply dict_in_set in Hin. destruct Hin as [Heq | Hin]; [| now apply (Hinv k' v)].
        inversion Heq; subst. destruct fields; [discriminate | reflexivity].
      * exact IH.
      * unfold state_after. rewrite Hrun. exact Hd.
    + now rewrite Hsame.
Qed.

(** X21: in every state a run can reach, an entry of the store is never
    taken for a missing one: the lookup answers with the not-found result
    exactly when the resolved symbol has no entry, and otherwise
    evaluates the found result on the entry. *)
Theorem entry_decides_the_branch (P : platform) (delivers : collector -> frame -> Prop)
        (symbol : string) (user_id username : option string) (source : string)
        (now : spec_float) (c : collector) :
  reachable P delivers c ->
  let correct_symbol := find_ticker (upper P) c symbol in
  let answer := result_of (get_ticker_data P symbol user_id username source now) c in
  match PyDict.get (KStr correct_symbol) (current_data c) with
  | Some entry => answer = found_result P entry
  | None => answer = Returned (not_found_result c symbol correct_symbol)
  end.
Proof.
  intros Hreach correct_symbol answer. unfold answer.
  rewrite get_ticker_data_result. cbv zeta. fold correct_symbol.
  destruct (PyDict.get (KStr correct_symbol) (current_data c)) as [entry |] eqn:E;
    [| reflexivity].
  apply dict_get_in in E.
  now rewrite (reachable_entries_truthy P delivers c Hreach _ _ E).
Qed.

Lemma entry_decides_the_branch_witness :
  reachable Sample.platform0 any_frame Sample.streaming /\
  result_of (get_ticker_data Sample.platform0 "btc" None None "TG" Sample.t0) Sample.streaming
  = found_result Sample.platform0 Sample.btc.
Proof.
  assert (H : reachable Sample.platform0 any_frame Sample.streaming)
    by (apply sample_run; exact I).
  split; [exact H |].
  exact (entry_decides_the_branch Sample.platform0 any_frame "btc" None None "TG" Sample.t0
           Sample.streaming H).
Defined.
